(** * Eligibility validation engine: a shallow embedding

    Source files embedded here:
    - [server/services/eligibility-service.ts] (the engine as first
      written: [maskCpf], [sanitizeUrl], [getNestedValue],
      [validateExternalApi], [executeEligibilityCheck]), module [V1];
    - the revised engine (same functions plus [applyAuth],
      [extractFields], [save_fields] and [extractedData]), module [V2];
      its listing follows the mock router in
      [server/routes/mock-eligibility.ts], and the line numbers quoted in
      [V2] are those of that file.

    [maskCpf], [sanitizeUrl] and [getNestedValue] are textually the same
    in both revisions and are embedded once.

    Conventions.  A JavaScript string is its sequence of UTF-16 code
    units.  [console.log]/[console.error]/[console.warn] lines are not
    modelled: they have no influence on any returned value.  [await] is
    sequential composition.  The network is a state [World] that each
    [fetch] reads and changes; exceptions are explicit ([Exc]), so that
    [try]/[catch] is a function and "no exception escapes" is a
    statement. *)

From Stdlib Require Import List NArith ZArith String Ascii Bool Lia.
Import ListNotations.

Set Implicit Arguments.
Set Warnings "-register-all".

(* ================================================================== *)
(** ** JavaScript strings *)

Definition code_unit := N.
Definition jsstring := list code_unit.

(** A literal made of ASCII characters. *)
Definition js (s : string) : jsstring :=
  map N_of_ascii (list_ascii_of_string s).
Arguments js s%_string.

Definition jsstring_eqb (a b : jsstring) : bool :=
  if list_eq_dec N.eq_dec a b then true else false.

(** Truthiness of a string: non-empty. *)
Definition truthy_string (s : jsstring) : bool :=
  match s with [] => false | _ :: _ => true end.

(** [s.slice(from, to)] for [0 <= from <= to]. *)
Definition slice (from to : nat) (s : jsstring) : jsstring :=
  firstn (to - from) (skipn from s).

Fixpoint starts_with (p s : jsstring) : bool :=
  match p, s with
  | [], _ => true
  | _ :: _, [] => false
  | a :: p', b :: s' => N.eqb a b && starts_with p' s'
  end.

(** [s.replace(pat, rep)] with a string pattern: only the FIRST
    occurrence of [pat] is replaced.  The [$]-patterns of the replacement
    text are not interpreted here; the engine's only replacement text is
    an [encodeURIComponent] output, which never holds a [$]
    (lemma [encodeURIComponent_no_dollar]). *)
Fixpoint String_replace (pat rep s : jsstring) {struct s} : jsstring :=
  if starts_with pat s then rep ++ skipn (List.length pat) s
  else match s with
       | [] => []
       | c :: s' => c :: String_replace pat rep s'
       end.

(** [s.includes(c)] for a one-character needle. *)
Definition includes_char (c : code_unit) (s : jsstring) : bool :=
  existsb (N.eqb c) s.

(** [s.split(sep)] for a one-character separator. *)
Fixpoint split_on (sep : code_unit) (s : jsstring) : list jsstring :=
  match s with
  | [] => [[]]
  | c :: s' =>
      if N.eqb c sep then [] :: split_on sep s'
      else match split_on sep s' with
           | h :: t => (c :: h) :: t
           | [] => [[c]]
           end
  end.

(** Regular-expression character classes used by the source. *)
Definition is_digit (c : code_unit) : bool := (48 <=? c)%N && (c <=? 57)%N.
(** [/\D/]: anything but [0-9]. *)
Definition is_non_digit (c : code_unit) : bool := negb (is_digit c).
(** [/[.\-]/]: a dot or a hyphen. *)
Definition is_dot_or_hyphen (c : code_unit) : bool :=
  N.eqb c 46 || N.eqb c 45.

(** [s.replace(/re/g, '')] where [re] matches single code units. *)
Fixpoint remove_all (matches : code_unit -> bool) (s : jsstring) : jsstring :=
  match s with
  | [] => []
  | c :: s' => if matches c then remove_all matches s'
               else c :: remove_all matches s'
  end.

(* ================================================================== *)
(** ** Exceptions *)

Inductive JsError := TypeError | URIError.

Inductive Exc (A : Type) : Type :=
| Return (a : A)
| Throw (e : JsError).
Arguments Return {A} a.
Arguments Throw {A} e.

Definition exc_bind {A B} (m : Exc A) (k : A -> Exc B) : Exc B :=
  match m with
  | Return a => k a
  | Throw e => Throw e
  end.

(* ================================================================== *)
(** ** [encodeURIComponent] *)

(** Characters left as they are: [A-Z a-z 0-9 - _ . ! ~ * ' ( )]. *)
Definition is_unreserved (c : code_unit) : bool :=
  ((65 <=? c) && (c <=? 90) || (97 <=? c) && (c <=? 122) || is_digit c
   || N.eqb c 45 || N.eqb c 95 || N.eqb c 46 || N.eqb c 33 || N.eqb c 126
   || N.eqb c 42 || N.eqb c 39 || N.eqb c 40 || N.eqb c 41)%N.

Definition hex_digit (n : N) : code_unit :=
  (if n <? 10 then 48 + n else 55 + n)%N.

(** ["%XX"], upper-case hexadecimal. *)
Definition percent (byte : N) : jsstring :=
  [37; hex_digit (byte / 16); hex_digit (byte mod 16)]%N.

Definition utf8 (cp : N) : list N :=
  (if cp <? 128 then [cp]
   else if cp <? 2048 then [192 + cp / 64; 128 + cp mod 64]
   else if cp <? 65536 then
     [224 + cp / 4096; 128 + (cp / 64) mod 64; 128 + cp mod 64]
   else [240 + cp / 262144; 128 + (cp / 4096) mod 64;
         128 + (cp / 64) mod 64; 128 + cp mod 64])%N.

Definition is_high_surrogate (c : code_unit) : bool :=
  ((55296 <=? c) && (c <=? 56319))%N.
Definition is_low_surrogate (c : code_unit) : bool :=
  ((56320 <=? c) && (c <=? 57343))%N.

Definition percent_encode (cp : N) : jsstring :=
  flat_map percent (utf8 cp).

(** Unreserved code units are copied; every other code point is written
    as the percent-escapes of its UTF-8 bytes; an unpaired surrogate
    raises [URIError]. *)
Fixpoint encodeURIComponent (s : jsstring) : Exc jsstring :=
  match s with
  | [] => Return []
  | c :: rest =>
      if is_unreserved c then
        exc_bind (encodeURIComponent rest) (fun r => Return (c :: r))
      else if is_low_surrogate c then Throw URIError
      else if is_high_surrogate c then
        match rest with
        | d :: rest' =>
            if is_low_surrogate d then
              exc_bind (encodeURIComponent rest') (fun r =>
                Return (percent_encode
                          ((c - 55296) * 1024 + (d - 56320) + 65536)%N ++ r))
            else Throw URIError
        | [] => Throw URIError
        end
      else
        exc_bind (encodeURIComponent rest) (fun r =>
          Return (percent_encode c ++ r))
  end.

(* ================================================================== *)
(** ** [maskCpf] and [sanitizeUrl] *)

(** [
export function maskCpf(cpf: string): string {
  const digits = cpf.replace(/\D/g, '');
  if (digits.length < 11) return '***.***.***-**';
  return `${digits.slice(0, 3)}.***.***.${digits.slice(9, 11)}`;
}
] *)
Definition maskCpf (cpf : jsstring) : jsstring :=
  let digits := remove_all is_non_digit cpf in
  if (List.length digits <? 11)%nat then js "***.***.***-**"
  else slice 0 3 digits ++ js ".***.***." ++ slice 9 11 digits.

(** A [Record<string, string>] as the list [Object.entries] yields:
    distinct keys, in enumeration order. *)
Definition StringRecord := list (jsstring * jsstring).

(** One turn of the loop of [sanitizeUrl]:
    [
    const sanitizedValue = key === 'cpf' ? value.replace(/[.\-]/g, '') : value;
    url = url.replace(`{${key}}`, encodeURIComponent(sanitizedValue));
    ] *)
Definition sanitizeUrl_step (url : jsstring) (entry : jsstring * jsstring)
  : Exc jsstring :=
  let '(key, value) := entry in
  let sanitizedValue :=
    if jsstring_eqb key (js "cpf") then remove_all is_dot_or_hyphen value
    else value in
  exc_bind (encodeURIComponent sanitizedValue) (fun encoded =>
    Return (String_replace (js "{" ++ key ++ js "}") encoded url)).

(** [
export function sanitizeUrl(baseUrl: string, params: Record<string, string>): string {
  let url = baseUrl;
  for (const [key, value] of Object.entries(params)) { ... }
  return url;
}
] *)
Fixpoint sanitizeUrl (baseUrl : jsstring) (params : StringRecord)
  : Exc jsstring :=
  match params with
  | [] => Return baseUrl
  | entry :: rest =>
      exc_bind (sanitizeUrl_step baseUrl entry) (fun url =>
        sanitizeUrl url rest)
  end.

(* ================================================================== *)
(** ** JSON values and property reads *)

(** What [response.json()] yields, what [validation.value] holds, plus
    [undefined].  Numerals are restricted to integers. *)
Inductive JsValue : Type :=
| JUndefined
| JNull
| JBool (b : bool)
| JNum (n : Z)
| JStr (s : jsstring)
| JArr (elems : list JsValue)
| JObj (fields : list (jsstring * JsValue)).

Definition JsObject := list (jsstring * JsValue).

(** [v !== undefined && v !== null] fails. *)
Definition is_nullish (v : JsValue) : bool :=
  match v with
  | JUndefined | JNull => true
  | _ => false
  end.

(** Truthiness, as tested by [&&], [||] and [if]. *)
Definition truthy (v : JsValue) : bool :=
  match v with
  | JUndefined | JNull => false
  | JBool b => b
  | JNum n => negb (Z.eqb n 0)
  | JStr s => truthy_string s
  | JArr _ | JObj _ => true
  end.

(** [a === b] between a value read from a parsed response and a value of
    the rule configuration.  Primitives compare by type and value;
    objects and arrays compare by identity, and an object of the response
    is never the same object as one of the configuration. *)
Definition strict_eq (a b : JsValue) : bool :=
  match a, b with
  | JUndefined, JUndefined => true
  | JNull, JNull => true
  | JBool x, JBool y => Bool.eqb x y
  | JNum x, JNum y => Z.eqb x y
  | JStr x, JStr y => jsstring_eqb x y
  | _, _ => false
  end.

Fixpoint digits_value (acc : N) (s : jsstring) : option N :=
  match s with
  | [] => Some acc
  | c :: s' =>
      if is_digit c then digits_value (acc * 10 + (c - 48))%N s' else None
  end.

(** A key that is a canonical array index: ["0"], or decimal digits
    without a leading zero. *)
Definition array_index (key : jsstring) : option nat :=
  match key with
  | [] => None
  | c :: rest =>
      if N.eqb c 48 then match rest with [] => Some 0%nat | _ => None end
      else option_map N.to_nat (digits_value 0 key)
  end.

Definition own_property {A} (fields : list (jsstring * A)) (key : jsstring)
  : option A :=
  option_map snd (find (fun kv => jsstring_eqb (fst kv) key) fields).

(** [current[key]] for a [current] that is neither [undefined] nor
    [null] (the only way [getNestedValue] reads a property).  Own
    properties of objects, elements and [length] of arrays and strings;
    members inherited from the built-in prototypes are functions, not
    JSON data, and are outside this model. *)
Definition property (current : JsValue) (key : jsstring) : JsValue :=
  match current with
  | JObj fields =>
      match own_property fields key with
      | Some v => v
      | None => JUndefined
      end
  | JArr elems =>
      if jsstring_eqb key (js "length") then JNum (Z.of_nat (List.length elems))
      else match array_index key with
           | Some i => nth i elems JUndefined
           | None => JUndefined
           end
  | JStr s =>
      if jsstring_eqb key (js "length") then JNum (Z.of_nat (List.length s))
      else match array_index key with
           | Some i => match nth_error s i with
                       | Some c => JStr [c]
                       | None => JUndefined
                       end
           | None => JUndefined
           end
  | _ => JUndefined
  end.

(** [
function getNestedValue(obj: any, path: string): any {
  return path.split('.').reduce((current, key) => {
    return current !== undefined && current !== null ? current[key] : undefined;
  }, obj);
}
] *)
Definition getNestedValue (obj : JsValue) (path : jsstring) : JsValue :=
  fold_left
    (fun current key =>
       if negb (is_nullish current) then property current key
       else JUndefined)
    (split_on 46%N path) obj.

(** [obj[key] = v] on an object kept as its entry list: an existing key
    keeps its place, a new key goes last. *)
Fixpoint record_set {A} (key : jsstring) (v : A)
  (obj : list (jsstring * A)) : list (jsstring * A) :=
  match obj with
  | [] => [(key, v)]
  | (k, x) :: rest =>
      if jsstring_eqb k key then (k, v) :: rest
      else (k, x) :: record_set key v rest
  end.

(** [{ ...a, ...b }]. *)
Definition spread {A} (a b : list (jsstring * A)) : list (jsstring * A) :=
  fold_left (fun acc kv => record_set (fst kv) (snd kv) acc) b a.

(** [x || fallback] for an optional string. *)
Definition string_or (x : option jsstring) (fallback : jsstring) : jsstring :=
  match x with
  | Some s => if truthy_string s then s else fallback
  | None => fallback
  end.

(* ================================================================== *)
(** ** Data model *)

Record AthleteData := {
  cpf : jsstring;
  nome : jsstring;
  email : option jsstring;
  dataNascimento : option jsstring;
  sexo : option jsstring
}.

(** [request.auth]. *)
Record EligibilityRuleAuth := {
  auth_type : jsstring;
  key_name : option jsstring;
  key_value : option jsstring
}.

Record EligibilityRuleRequest := {
  url : jsstring;
  method : option jsstring;
  params : list jsstring;
  headers : option StringRecord;
  timeout_ms : option Z;
  auth : option EligibilityRuleAuth
}.

Record EligibilityRuleValidation := {
  mode : jsstring;
  allowed_status : option (list Z);
  path : option jsstring;
  value : JsValue            (* [JUndefined] when not configured *)
}.

(** [request] is optional because [executeEligibilityCheck] reads it with
    [r.request?.url]; [error_message] and [save_fields] are [None] when
    not set.  [auth] and [save_fields] are read by the revised engine
    only. *)
Record EligibilityRule := {
  type : jsstring;
  enabled : bool;
  request : option EligibilityRuleRequest;
  validation : EligibilityRuleValidation;
  on_error : jsstring;
  error_message : option jsstring;
  save_fields : option (list jsstring)
}.

(** [{ ok, message?, extractedData? }]. *)
Record ValidationResult := {
  ok : bool;
  message : option jsstring;
  extractedData : option JsObject
}.

Record EligibilityResult := {
  eligible : bool;
  messages : list jsstring;
  result_extractedData : option JsObject
}.

(** [(athleteData as any)[param]], [None] for [undefined] or [null].
    The record has its five fields and nothing else; a parameter that
    names a member inherited from [Object.prototype] is outside this
    model. *)
Definition athlete_field (a : AthleteData) (param : jsstring)
  : option jsstring :=
  if jsstring_eqb param (js "cpf") then Some (cpf a)
  else if jsstring_eqb param (js "nome") then Some (nome a)
  else if jsstring_eqb param (js "email") then email a
  else if jsstring_eqb param (js "dataNascimento") then dataNascimento a
  else if jsstring_eqb param (js "sexo") then sexo a
  else None.

(** [
    const paramValues: Record<string, string> = {};
    for (const param of ruleConfig.request.params) {
      const value = (athleteData as any)[param];
      if (value !== undefined && value !== null) {
        paramValues[param] = String(value);
      }
    }
    ] *)
Definition paramValues_of (params : list jsstring) (athleteData : AthleteData)
  : StringRecord :=
  fold_left
    (fun paramValues param =>
       match athlete_field athleteData param with
       | Some v => record_set param v paramValues
       | None => paramValues
       end)
    params [].

(** ['Validação externa temporariamente indisponível, inscrição permitida.'] *)
Definition unavailable_message : jsstring :=
  js "Valida" ++ [231; 227]%N ++ js "o externa temporariamente indispon"
  ++ [237]%N ++ js "vel, inscri" ++ [231; 227]%N ++ js "o permitida.".

(** ['Erro inesperado na validação externa.'] *)
Definition unexpected_message : jsstring :=
  js "Erro inesperado na valida" ++ [231; 227]%N ++ js "o externa.".

(** The three lines the source repeats at every infrastructure failure:
    [
      if (ruleConfig.on_error === 'allow') {
        return { ok: true, message: 'Validação externa temporariamente indisponível, inscrição permitida.' };
      }
      return { ok: false, message: ruleConfig.error_message || 'Erro inesperado na validação externa.' };
    ] *)
Definition on_error_result (ruleConfig : EligibilityRule) : ValidationResult :=
  if jsstring_eqb (on_error ruleConfig) (js "allow") then
    {| ok := true; message := Some unavailable_message;
       extractedData := None |}
  else
    {| ok := false;
       message := Some (string_or (error_message ruleConfig) unexpected_message);
       extractedData := None |}.

(** [return { ok: false, message: ruleConfig.error_message };] *)
Definition ineligible (ruleConfig : EligibilityRule) : ValidationResult :=
  {| ok := false; message := error_message ruleConfig;
     extractedData := None |}.

(** [ruleConfig.validation.allowed_status || [200]] (an array, even an
    empty one, is truthy). *)
Definition allowedStatuses_of (ruleConfig : EligibilityRule) : list Z :=
  match allowed_status (validation ruleConfig) with
  | Some l => l
  | None => [200%Z]
  end.

(** [allowedStatuses.includes(response.status)]. *)
Definition includes_status (l : list Z) (status : Z) : bool :=
  existsb (Z.eqb status) l.

(** [r.enabled && r.request?.url], as a filter predicate. *)
Definition isActive (r : EligibilityRule) : bool :=
  enabled r &&
  match request r with
  | Some rq => truthy_string (url rq)
  | None => false
  end.

(* ================================================================== *)
(** ** The network and the effect monad *)

(** What [fetch] is called with.  The POST body is kept as the record
    that [JSON.stringify] serialises. *)
Record Request := {
  req_url : jsstring;
  req_method : jsstring;
  req_headers : StringRecord;
  req_body : option StringRecord;
  req_timeout_ms : Z          (* delay of the abort timer *)
}.

(** How one [fetch] ends: it rejects with an error named [name]
    (['AbortError'] when the timer fired), or it resolves to a response
    with a [status] whose [json()] yields a value or rejects ([None]). *)
Inductive FetchOutcome :=
| Rejected (name : jsstring)
| Responded (status : Z) (json : option JsValue).

Section Effects.
Context {World : Type}.

(** A computation that may touch the network and may throw. *)
Definition Eff (A : Type) : Type := World -> Exc A * World.

Definition ret {A} (a : A) : Eff A := fun w => (Return a, w).

Definition throw {A} (e : JsError) : Eff A := fun w => (Throw e, w).

Definition bind {A B} (m : Eff A) (k : A -> Eff B) : Eff B :=
  fun w =>
    match m w with
    | (Return a, w') => k a w'
    | (Throw e, w') => (Throw e, w')
    end.

Definition lift {A} (m : Exc A) : Eff A := fun w => (m, w).

(** [try { body } catch (error) { handler }]. *)
Definition try_catch {A} (body : Eff A) (handler : JsError -> Eff A)
  : Eff A :=
  fun w =>
    match body w with
    | (Return a, w') => (Return a, w')
    | (Throw e, w') => handler e w'
    end.
End Effects.

Arguments Eff World A : clear implicits.

Declare Scope eff_scope.
Delimit Scope eff_scope with eff.
Notation "x <- m ;; k" := (bind m (fun x => k))
  (at level 61, m at next level, right associativity) : eff_scope.

(* ================================================================== *)
(** ** The engine of [server/services/eligibility-service.ts] *)

Module V1.
Section Engine.
Variable World : Type.
(** One call of [fetch]: its outcome and the network afterwards. *)
Variable fetch : Request -> World -> FetchOutcome * World.

Local Open Scope eff_scope.

(** Lines 42-62: parameters, URL and options of the call.  Reading
    [ruleConfig.request.params] of a rule without [request] raises
    [TypeError]; [sanitizeUrl] may raise [URIError]. *)
Definition prepareRequest (ruleConfig : EligibilityRule)
  (athleteData : AthleteData) : Exc Request :=
  match request ruleConfig with
  | None => Throw TypeError
  | Some rq =>
      let paramValues := paramValues_of (params rq) athleteData in
      exc_bind (sanitizeUrl (url rq) paramValues) (fun finalUrl =>
        Return
          {| req_url := finalUrl;
             req_method := string_or (method rq) (js "GET");
             req_headers :=
               spread [(js "Accept", js "application/json")]
                      (match headers rq with Some h => h | None => [] end);
             req_body := None;
             req_timeout_ms :=
               match timeout_ms rq with
               | Some t => if Z.eqb t 0 then 3000%Z else t
               | None => 3000%Z
               end |})
  end.

(** Lines 81-126: what the engine makes of a response. *)
Definition interpretResponse (ruleConfig : EligibilityRule)
  (status : Z) (json : option JsValue) : ValidationResult :=
  if Z.eqb status 404 then ineligible ruleConfig
  else if Z.leb 500 status then on_error_result ruleConfig
  else if jsstring_eqb (mode (validation ruleConfig)) (js "http_status") then
    let allowedStatuses := allowedStatuses_of ruleConfig in
    if includes_status allowedStatuses status then
      {| ok := true; message := None; extractedData := None |}
    else ineligible ruleConfig
  else if jsstring_eqb (mode (validation ruleConfig)) (js "json_compare") then
    match json with
    | Some data =>
        let fieldPath := string_or (path (validation ruleConfig)) [] in
        let expectedValue := value (validation ruleConfig) in
        let actualValue := getNestedValue data fieldPath in
        if strict_eq actualValue expectedValue then
          {| ok := true; message := None; extractedData := None |}
        else ineligible ruleConfig
    | None => on_error_result ruleConfig
    end
  else {| ok := true; message := None; extractedData := None |}.

(** The body of the outer [try]. *)
Definition validateExternalApi_body (ruleConfig : EligibilityRule)
  (athleteData : AthleteData) : Eff World ValidationResult :=
  req <- lift (prepareRequest ruleConfig athleteData) ;;
  outcome <- (fun w => let (o, w') := fetch req w in (Return o, w')) ;;
  match outcome with
  | Rejected _ => ret (on_error_result ruleConfig)
  | Responded status json => ret (interpretResponse ruleConfig status json)
  end.

Definition validateExternalApi (ruleConfig : EligibilityRule)
  (athleteData : AthleteData) : Eff World ValidationResult :=
  try_catch (validateExternalApi_body ruleConfig athleteData)
            (fun _ => ret (on_error_result ruleConfig)).

(** The [for (const rule of activeRules)] loop, with the two variables
    it updates. *)
Fixpoint checkRules (athleteData : AthleteData)
  (activeRules : list EligibilityRule)
  (eligible0 : bool) (messages0 : list jsstring)
  : Eff World EligibilityResult :=
  match activeRules with
  | [] => ret {| eligible := eligible0; messages := messages0;
                 result_extractedData := None |}
  | rule :: rest =>
      if jsstring_eqb (type rule) (js "api_rest") then
        result <- validateExternalApi rule athleteData ;;
        if negb (ok result) then
          checkRules athleteData rest false
            (match message result with
             | Some m => if truthy_string m then messages0 ++ [m]
                         else messages0
             | None => messages0
             end)
        else checkRules athleteData rest eligible0 messages0
      else checkRules athleteData rest eligible0 messages0
  end.

Definition executeEligibilityCheck (athleteData : AthleteData)
  (rules : list EligibilityRule) : Eff World EligibilityResult :=
  let activeRules := filter isActive rules in
  if Nat.eqb (List.length activeRules) 0 then
    ret {| eligible := true; messages := [];
           result_extractedData := None |}
  else checkRules athleteData activeRules true [].
End Engine.
End V1.

(* ================================================================== *)
(** ** The revised engine (authentication, [save_fields]) *)

Module V2.
(** [
function applyAuth(url, headers, auth?) {
if (!auth || auth.type === 'none') return { url, headers };
const keyName = auth.key_name || '';
const keyValue = auth.key_value || '';
if (!keyValue) return { url, headers };
switch (auth.type) { ... }
}
] *)
Definition applyAuth (url : jsstring) (headers : StringRecord)
  (auth : option EligibilityRuleAuth) : Exc (jsstring * StringRecord) :=
  match auth with
  | None => Return (url, headers)
  | Some a =>
      if jsstring_eqb (auth_type a) (js "none") then Return (url, headers)
      else
        let keyName := string_or (key_name a) [] in
        let keyValue := string_or (key_value a) [] in
        if negb (truthy_string keyValue) then Return (url, headers)
        else if jsstring_eqb (auth_type a) (js "api_key_header") then
          Return (url,
                  record_set (if truthy_string keyName then keyName
                              else js "X-API-Key") keyValue headers)
        else if jsstring_eqb (auth_type a) (js "api_key_query") then
          let separator :=
            if includes_char 63%N url then js "&" else js "?" in
          let paramName :=
            if truthy_string keyName then keyName else js "api_key" in
          exc_bind (encodeURIComponent paramName) (fun n =>
          exc_bind (encodeURIComponent keyValue) (fun v =>
            Return (url ++ separator ++ n ++ js "=" ++ v, headers)))
        else if jsstring_eqb (auth_type a) (js "bearer_token") then
          Return (url,
                  record_set (js "Authorization")
                             (js "Bearer " ++ keyValue) headers)
        else Return (url, headers)
  end.

(** [
function extractFields(data: any, fields: string[]): Record<string, any> {
const extracted: Record<string, any> = {};
for (const field of fields) {
  const value = getNestedValue(data, field);
  if (value !== undefined) extracted[field] = value;
}
return extracted;
}
] *)
Definition extractFields (data : JsValue) (fields : list jsstring)
  : JsObject :=
  fold_left
    (fun extracted field =>
       match getNestedValue data field with
       | JUndefined => extracted
       | v => record_set field v extracted
       end)
    fields [].

(** [ruleConfig.save_fields || []]. *)
Definition saveFields_of (ruleConfig : EligibilityRule) : list jsstring :=
  match save_fields ruleConfig with
  | Some l => l
  | None => []
  end.

Section Engine.
Variable World : Type.
Variable fetch : Request -> World -> FetchOutcome * World.

Local Open Scope eff_scope.

(** Lines 185-215: parameters, URL, headers, authentication and
    options of the call. *)
Definition prepareRequest (ruleConfig : EligibilityRule)
  (athleteData : AthleteData) : Exc Request :=
  match request ruleConfig with
  | None => Throw TypeError
  | Some rq =>
      let paramValues := paramValues_of (params rq) athleteData in
      exc_bind (sanitizeUrl (url rq) paramValues) (fun rawUrl =>
      let baseHeaders :=
        spread [(js "Accept", js "application/json")]
               (match headers rq with Some h => h | None => [] end) in
      exc_bind (applyAuth rawUrl baseHeaders (auth rq)) (fun '(finalUrl, finalHeaders) =>
      let method := string_or (method rq) (js "GET") in
      let isPost := jsstring_eqb method (js "POST") in
      Return
        {| req_url := finalUrl;
           req_method := method;
           req_headers :=
             if isPost then
               record_set (js "Content-Type") (js "application/json")
                          finalHeaders
             else finalHeaders;
           req_body := if isPost then Some paramValues else None;
           req_timeout_ms :=
             match timeout_ms rq with
             | Some t => if Z.eqb t 0 then 3000%Z else t
             | None => 3000%Z
             end |}))
  end.

(** Lines 265-292: the verdict once [responseData] is settled (the
    parsed body, or [null] when the body was not read or did not
    parse). *)
Definition judge (ruleConfig : EligibilityRule)
  (status : Z) (responseData : JsValue) : ValidationResult :=
  let saveFields := saveFields_of ruleConfig in
  let extracted :=
    if truthy responseData && Nat.ltb 0 (List.length saveFields)
    then Some (extractFields responseData saveFields)
    else None in
  if jsstring_eqb (mode (validation ruleConfig)) (js "http_status") then
    let allowedStatuses := allowedStatuses_of ruleConfig in
    if includes_status allowedStatuses status then
      {| ok := true; message := None; extractedData := extracted |}
    else ineligible ruleConfig
  else if jsstring_eqb (mode (validation ruleConfig)) (js "json_compare")
          && truthy responseData then
    let fieldPath := string_or (path (validation ruleConfig)) [] in
    let expectedValue := value (validation ruleConfig) in
    let actualValue := getNestedValue responseData fieldPath in
    if strict_eq actualValue expectedValue then
      {| ok := true; message := None; extractedData := extracted |}
    else ineligible ruleConfig
  else {| ok := true; message := None; extractedData := extracted |}.

(** Lines 234-263, then [judge]: what the engine makes of a response.
    [json] is the outcome of [response.json()], read only where the
    source calls it. *)
Definition interpretResponse (ruleConfig : EligibilityRule)
  (status : Z) (json : option JsValue) : ValidationResult :=
  if Z.eqb status 404 then ineligible ruleConfig
  else if Z.leb 500 status then on_error_result ruleConfig
  else
    let saveFields := saveFields_of ruleConfig in
    if jsstring_eqb (mode (validation ruleConfig)) (js "json_compare")
       || Nat.ltb 0 (List.length saveFields) then
      match json with
      | Some data => judge ruleConfig status data
      | None =>
          if jsstring_eqb (mode (validation ruleConfig)) (js "json_compare")
          then on_error_result ruleConfig
          else judge ruleConfig status JNull
      end
    else judge ruleConfig status JNull.

(** The body of the outer [try]. *)
Definition validateExternalApi_body (ruleConfig : EligibilityRule)
  (athleteData : AthleteData) : Eff World ValidationResult :=
  req <- lift (prepareRequest ruleConfig athleteData) ;;
  outcome <- (fun w => let (o, w') := fetch req w in (Return o, w')) ;;
  match outcome with
  | Rejected _ => ret (on_error_result ruleConfig)
  | Responded status json => ret (interpretResponse ruleConfig status json)
  end.

Definition validateExternalApi (ruleConfig : EligibilityRule)
  (athleteData : AthleteData) : Eff World ValidationResult :=
  try_catch (validateExternalApi_body ruleConfig athleteData)
            (fun _ => ret (on_error_result ruleConfig)).

(** The [for (const rule of activeRules)] loop, with the three
    variables it updates, and the final [return]. *)
Fixpoint checkRules (athleteData : AthleteData)
  (activeRules : list EligibilityRule)
  (eligible0 : bool) (messages0 : list jsstring) (extractedData0 : JsObject)
  : Eff World EligibilityResult :=
  match activeRules with
  | [] =>
      ret {| eligible := eligible0; messages := messages0;
             result_extractedData :=
               if Nat.ltb 0 (List.length extractedData0)
               then Some extractedData0 else None |}
  | rule :: rest =>
      if jsstring_eqb (type rule) (js "api_rest") then
        result <- validateExternalApi rule athleteData ;;
        let '(eligible1, messages1) :=
          if negb (ok result) then
            (false,
             match message result with
             | Some m => if truthy_string m then messages0 ++ [m]
                         else messages0
             | None => messages0
             end)
          else (eligible0, messages0) in
        let extractedData1 :=
          match extractedData result with
          | Some e => spread extractedData0 e
          | None => extractedData0
          end in
        checkRules athleteData rest eligible1 messages1 extractedData1
      else checkRules athleteData rest eligible0 messages0 extractedData0
  end.

Definition executeEligibilityCheck (athleteData : AthleteData)
  (rules : list EligibilityRule) : Eff World EligibilityResult :=
  let activeRules := filter isActive rules in
  if Nat.eqb (List.length activeRules) 0 then
    ret {| eligible := true; messages := [];
           result_extractedData := None |}
  else checkRules athleteData activeRules true [] [].
End Engine.
End V2.

(* ================================================================== *)
(** ** Both revisions under one name *)

Inductive Revision := Original | Revised.

Definition prepareRequest (rev : Revision)
  : EligibilityRule -> AthleteData -> Exc Request :=
  match rev with
  | Original => V1.prepareRequest
  | Revised => V2.prepareRequest
  end.

Definition validateExternalApi (rev : Revision) {World : Type}
  (fetch : Request -> World -> FetchOutcome * World)
  : EligibilityRule -> AthleteData -> Eff World ValidationResult :=
  match rev with
  | Original => V1.validateExternalApi fetch
  | Revised => V2.validateExternalApi fetch
  end.

Definition executeEligibilityCheck (rev : Revision) {World : Type}
  (fetch : Request -> World -> FetchOutcome * World)
  : AthleteData -> list EligibilityRule -> Eff World EligibilityResult :=
  match rev with
  | Original => V1.executeEligibilityCheck fetch
  | Revised => V2.executeEligibilityCheck fetch
  end.

(* ================================================================== *)
(** ** Test networks and test data *)

(** A network that answers every call the same way. *)
Definition always (o : FetchOutcome) : Request -> unit -> FetchOutcome * unit :=
  fun _ w => (o, w).

(** A network that plays a script, one outcome per call, and refuses
    connections once the script is over. *)
Definition scripted : Request -> list FetchOutcome -> FetchOutcome * list FetchOutcome :=
  fun _ script =>
    match script with
    | o :: rest => (o, rest)
    | [] => (Rejected (js "TypeError"), [])
    end.

Definition ana : AthleteData :=
  {| cpf := js "123.456.789-00"; nome := js "Ana";
     email := None; dataNascimento := None; sexo := None |}.

Definition get_by_cpf : EligibilityRuleRequest :=
  {| url := js "https://x/{cpf}"; method := Some (js "GET");
     params := [js "cpf"]; headers := None; timeout_ms := Some 3000%Z;
     auth := None |}.

Definition not_eligible_message : jsstring := js "CPF sem cadastro.".

(** A rule of type [api_rest], enabled, on [get_by_cpf]. *)
Definition rule_with (v : EligibilityRuleValidation) (onError : jsstring)
  : EligibilityRule :=
  {| type := js "api_rest"; enabled := true; request := Some get_by_cpf;
     validation := v; on_error := onError;
     error_message := Some not_eligible_message; save_fields := None |}.

Definition by_status (allowed : option (list Z)) : EligibilityRuleValidation :=
  {| mode := js "http_status"; allowed_status := allowed; path := None;
     value := JUndefined |}.

Definition by_json (p : jsstring) (v : JsValue) : EligibilityRuleValidation :=
  {| mode := js "json_compare"; allowed_status := None; path := Some p;
     value := v |}.

Definition by_mode (m : jsstring) : EligibilityRuleValidation :=
  {| mode := m; allowed_status := None; path := None; value := JUndefined |}.

(** The body of the mock endpoint for an athlete on file. *)
Definition on_file (apto : JsValue) (categoria : jsstring) : JsValue :=
  JObj [(js "cpf", JStr (js "12345678900")); (js "nome", JStr (js "Ana"));
        (js "apto", apto); (js "categoria", JStr categoria)].

(** [rule_with], with other messages and with [save_fields]. *)
Definition rule_saving (v : EligibilityRuleValidation) (msg : jsstring)
  (fields : list jsstring) : EligibilityRule :=
  {| type := js "api_rest"; enabled := true; request := Some get_by_cpf;
     validation := v; on_error := js "block";
     error_message := Some msg; save_fields := Some fields |}.

(** The same rule, switched off. *)
Definition disabled (r : EligibilityRule) : EligibilityRule :=
  {| type := type r; enabled := false; request := request r;
     validation := validation r; on_error := on_error r;
     error_message := error_message r; save_fields := save_fields r |}.

(** The same rule, without [request]. *)
Definition without_request (r : EligibilityRule) : EligibilityRule :=
  {| type := type r; enabled := enabled r; request := None;
     validation := validation r; on_error := on_error r;
     error_message := error_message r; save_fields := save_fields r |}.

(* ================================================================== *)
(** ** Vocabulary of the properties *)

(** Code units are 16-bit. *)
Definition well_formed (s : jsstring) : Prop :=
  Forall (fun c => (c < 65536)%N) s.

(** A [%] or an upper-case hexadecimal digit. *)
Definition is_percent_or_hex (c : code_unit) : bool :=
  (N.eqb c 37 || is_digit c || (65 <=? c) && (c <=? 70))%N.

Definition interpretResponse (rev : Revision)
  : EligibilityRule -> Z -> option JsValue -> ValidationResult :=
  match rev with
  | Original => V1.interpretResponse
  | Revised => V2.interpretResponse
  end.

(** The infrastructure failures of one rule evaluation, as outcomes of
    its [fetch]: the call is rejected (network error, or timeout when
    the abort timer fires); the server answers 5xx; or the body does not
    parse where a [json_compare] rule reads it (the engine reads no body
    on a 404 or a 5xx). *)
Inductive InfrastructureFailure (ruleConfig : EligibilityRule)
  : FetchOutcome -> Prop :=
| network_error_or_timeout (name : jsstring) :
    InfrastructureFailure ruleConfig (Rejected name)
| server_error (status : Z) (json : option JsValue) :
    (500 <= status)%Z ->
    InfrastructureFailure ruleConfig (Responded status json)
| json_parse_failure (status : Z) :
    mode (validation ruleConfig) = js "json_compare" ->
    status <> 404%Z -> (status < 500)%Z ->
    InfrastructureFailure ruleConfig (Responded status None).

(** Not taken by the filter of [executeEligibilityCheck]: disabled, or
    without a request URL. *)
Definition inactive (r : EligibilityRule) : Prop :=
  enabled r = false
  \/ request r = None
  \/ exists rq, request r = Some rq /\ url rq = [].

(** Decides the comparisons between string literals in the goal. *)
Ltac literals :=
  repeat match goal with
  | |- context [jsstring_eqb (js ?a) (js ?b)] =>
      let v := eval vm_compute in (jsstring_eqb (js a) (js b)) in
      change (jsstring_eqb (js a) (js b)) with v
  end.

(* ================================================================== *)
(** ** The mock endpoint of [server/routes/mock-eligibility.ts] *)

Module MockApi.

(** One entry of [server/data/mock-eligibility.json]. *)
Record MockAthlete := {
  cpf : jsstring;
  nome : jsstring;
  apto : bool;
  categoria : jsstring;
  observacao : jsstring
}.

Definition MOCK_API_KEY : jsstring := js "test-key-2026".

(** What the handlers read of an Express request: [req.headers] (names
    in lower case), [req.query], [req.params.cpf] and [req.body.cpf]
    ([None] when the body or the field is missing).  Header and query
    values are strings; an array or an object in their place compares
    like a string that is not the key. *)
Record MockRequest := {
  http_headers : StringRecord;
  http_query : StringRecord;
  param_cpf : jsstring;
  body_cpf : option jsstring
}.

(** [res.status(..).json(..)]; [res.json(..)] alone answers 200. *)
Record MockResponse := {
  status : Z;
  body : JsValue
}.

(** [x === s] for an optional string [x]. *)
Definition is_string (x : option jsstring) (s : jsstring) : bool :=
  match x with
  | Some v => jsstring_eqb v s
  | None => false
  end.

(** [
function validateApiKey(req: any): boolean {
  const headerKey = req.headers["x-api-key"];
  const queryKey = req.query.api_key;
  const authHeader = req.headers["authorization"];
  if (headerKey === MOCK_API_KEY) return true;
  if (queryKey === MOCK_API_KEY) return true;
  if (authHeader === `Bearer ${MOCK_API_KEY}`) return true;
  return false;
}
] *)
Definition validateApiKey (req : MockRequest) : bool :=
  let headerKey := own_property (http_headers req) (js "x-api-key") in
  let queryKey := own_property (http_query req) (js "api_key") in
  let authHeader := own_property (http_headers req) (js "authorization") in
  if is_string headerKey MOCK_API_KEY then true
  else if is_string queryKey MOCK_API_KEY then true
  else if is_string authHeader (js "Bearer " ++ MOCK_API_KEY) then true
  else false.

(** [{ error: "API key inválida ou ausente" }] *)
Definition invalid_key : JsValue :=
  JObj [(js "error",
         JStr (js "API key inv" ++ [225%N] ++ js "lida ou ausente"))].

(** [{ error: "CPF não encontrado na base de dados" }] *)
Definition cpf_not_found : JsValue :=
  JObj [(js "error",
         JStr (js "CPF n" ++ [227%N] ++ js "o encontrado na base de dados"))].


(** The object both routes answer with. *)
Definition athlete_json (athlete : MockAthlete) : JsValue :=
  JObj [(js "cpf", JStr (cpf athlete));
        (js "nome", JStr (nome athlete));
        (js "apto", JBool (apto athlete));
        (js "categoria", JStr (categoria athlete));
        (js "observacao", JStr (observacao athlete))].

(** Lines 46-60 and 73-87: look the cleaned CPF up and answer.
    [athletes] is what [loadMockData()] returned. *)
Definition lookup_athlete (athletes : list MockAthlete) (cleanCpf : jsstring)
  : MockResponse :=
  match find (fun a => jsstring_eqb (cpf a) cleanCpf) athletes with
  | None => {| status := 404; body := cpf_not_found |}
  | Some athlete => {| status := 200; body := athlete_json athlete |}
  end.

(** [router.get("/pacientes/:cpf", ...)]. *)
Definition get_pacientes (athletes : list MockAthlete) (req : MockRequest)
  : MockResponse :=
  if negb (validateApiKey req) then {| status := 401; body := invalid_key |}
  else
    let cpf := remove_all is_dot_or_hyphen (param_cpf req) in
    lookup_athlete athletes cpf.


End MockApi.

(* ================================================================== *)
(** ** [formatCPF], in the receipt route and in the registrations page *)

(** ["ddd.ddd.ddd-dd"] from eleven characters (and whatever follows the
    ninth goes after the hyphen). *)
Definition cpf_groups (d : jsstring) : jsstring :=
  slice 0 3 d ++ js "." ++ slice 3 6 d ++ js "." ++ slice 6 9 d ++ js "-"
  ++ skipn 9 d.

Module ReceiptRoute.

(** [
function formatCPF(cpf: string | null): string {
  if (!cpf) return "N/A";
  const cleaned = cpf.replace(/\D/g, "");
  if (cleaned.length !== 11) return cpf;
  return `${cleaned.slice(0, 3)}.${cleaned.slice(3, 6)}.${cleaned.slice(6, 9)}-${cleaned.slice(9)}`;
}
] *)
Definition formatCPF (cpf : option jsstring) : jsstring :=
  match cpf with
  | None => js "N/A"
  | Some cpf =>
      if negb (truthy_string cpf) then js "N/A"
      else
        let cleaned := remove_all is_non_digit cpf in
        if negb (Nat.eqb (List.length cleaned) 11) then cpf
        else cpf_groups cleaned
  end.

End ReceiptRoute.

Module InscritosPage.

(** [s.replace(/(\d{3})(\d{3})(\d{3})(\d{2})/, "$1.$2.$3-$4")]: the
    leftmost run of eleven digits is regrouped, the rest is copied. *)
Fixpoint replace_cpf_pattern (s : jsstring) {struct s} : jsstring :=
  if Nat.eqb (List.length (firstn 11 s)) 11 && forallb is_digit (firstn 11 s)
  then
    let m := firstn 11 s in
    slice 0 3 m ++ js "." ++ slice 3 6 m ++ js "." ++ slice 6 9 m ++ js "-"
    ++ slice 9 11 m ++ skipn 11 s
  else match s with
       | [] => []
       | c :: s' => c :: replace_cpf_pattern s'
       end.

(** [
function formatCPF(cpf: string | null): string {
  if (!cpf) return "-";
  const cleaned = cpf.replace(/\D/g, "");
  if (cleaned.length !== 11) return cpf;
  return cleaned.replace(/(\d{3})(\d{3})(\d{3})(\d{2})/, "$1.$2.$3-$4");
}
] *)
Definition formatCPF (cpf : option jsstring) : jsstring :=
  match cpf with
  | None => js "-"
  | Some cpf =>
      if negb (truthy_string cpf) then js "-"
      else
        let cleaned := remove_all is_non_digit cpf in
        if negb (Nat.eqb (List.length cleaned) 11) then cpf
        else replace_cpf_pattern cleaned
  end.

(** What [getExportData] reads of a registration. *)
Record EnrichedRegistration := {
  status : jsstring;
  dadosElegibilidade : option JsObject
}.

(** Lines 268-276: the registrations the chosen filter exports. *)
Definition dataToExport_of (registrations : list EnrichedRegistration)
  (filter_name : jsstring) : list EnrichedRegistration :=
  if jsstring_eqb filter_name (js "confirmadas") then
    filter (fun r => jsstring_eqb (status r) (js "confirmada")) registrations
  else if jsstring_eqb filter_name (js "pendentes") then
    filter (fun r => jsstring_eqb (status r) (js "pendente")) registrations
  else if jsstring_eqb filter_name (js "canceladas") then
    filter (fun r => jsstring_eqb (status r) (js "cancelada")) registrations
  else registrations.

(** Lines 278-289: the eligibility columns, in the order the keys are
    first met.  [seenKeys] always holds the elements of
    [eligibilityKeys], so [seenKeys.has(key)] is membership in the
    list. *)
Definition eligibilityKeys_of (dataToExport : list EnrichedRegistration)
  : list jsstring :=
  fold_left
    (fun eligibilityKeys reg =>
       match dadosElegibilidade reg with
       | Some dados =>
           fold_left
             (fun keys key =>
                if existsb (jsstring_eqb key) keys then keys
                else keys ++ [key])
             (map fst dados) eligibilityKeys
       | None => eligibilityKeys
       end)
    dataToExport [].

Section Cells.
(** [String(val)] for a value that is neither [null] nor [undefined]. *)
Variable String_of : JsValue -> jsstring.

(** Lines 329-332:
    [
      const eligibilityValues = eligibilityKeys.map(key => {
        const val = reg.dadosElegibilidade?.[key];
        return val != null ? String(val) : "";
      });
    ] *)
Definition eligibilityValues_of (eligibilityKeys : list jsstring)
  (reg : EnrichedRegistration) : list jsstring :=
  map (fun key =>
         let val :=
           match dadosElegibilidade reg with
           | Some dados =>
               match own_property dados key with
               | Some v => v
               | None => JUndefined
               end
           | None => JUndefined
           end in
         if negb (is_nullish val) then String_of val else [])
      eligibilityKeys.
End Cells.

End InscritosPage.

(* ================================================================== *)
(** ** Vocabulary of the further properties *)

(** No surrogate code unit at all. *)
Definition no_surrogates (s : jsstring) : bool :=
  forallb (fun c => negb (is_high_surrogate c || is_low_surrogate c)) s.


(** A network with a counter of the calls made. *)
Definition counted {World : Type}
  (fetch : Request -> World -> FetchOutcome * World)
  : Request -> World * nat -> FetchOutcome * (World * nat) :=
  fun req '(w, n) => let (o, w') := fetch req w in (o, (w', S n)).

(** The same rule under another [on_error]. *)
Definition with_on_error (r : EligibilityRule) (policy : jsstring)
  : EligibilityRule :=
  {| type := type r; enabled := enabled r; request := request r;
     validation := validation r; on_error := policy;
     error_message := error_message r; save_fields := save_fields r |}.

(** The rule is of type ['api_rest']. *)
Definition is_api_rest (r : EligibilityRule) : bool :=
  jsstring_eqb (type r) (js "api_rest").

(** The request of the rule can be built. *)
Definition request_builds (rev : Revision) (r : EligibilityRule)
  (athlete : AthleteData) : bool :=
  match prepareRequest rev r athlete with
  | Return _ => true
  | Throw _ => false
  end.

(** A mock request carrying the key in the [x-api-key] header. *)
Definition with_key (cpf_param : jsstring) : MockApi.MockRequest :=
  {| MockApi.http_headers := [(js "x-api-key", MockApi.MOCK_API_KEY)];
     MockApi.http_query := [];
     MockApi.param_cpf := cpf_param;
     MockApi.body_cpf := Some cpf_param |}.

Definition mock_athletes : list MockApi.MockAthlete :=
  [ {| MockApi.cpf := js "12345678900"; MockApi.nome := js "Ana";
       MockApi.apto := true; MockApi.categoria := js "A";
       MockApi.observacao := [] |};
    {| MockApi.cpf := js "52998224725"; MockApi.nome := js "Rui";
       MockApi.apto := false; MockApi.categoria := js "B";
       MockApi.observacao := js "pendente" |} ].

(** The three kinds of result of [validateExternalApi]: a pass without
    message (the only kind that may carry extracted data), the advisory
    pass of [on_error = 'allow'], and a failure, whose message is the
    rule's or the generic one. *)
Definition well_shaped (rule : EligibilityRule) (r : ValidationResult)
  : Prop :=
  (ok r = true /\ message r = None)
  \/ (ok r = true /\ message r = Some unavailable_message
      /\ extractedData r = None /\ on_error rule = js "allow")
  \/ (ok r = false /\ extractedData r = None
      /\ (message r = error_message rule
          \/ message r = Some unexpected_message)).

(** A message that the verdict on [rules] may carry: the
    [error_message] of a rule that is active and of type ['api_rest'],
    or the generic message. *)
Definition message_of_rules (rules : list EligibilityRule) (m : jsstring)
  : Prop :=
  m = unexpected_message
  \/ exists r, In r rules /\ isActive r = true /\ is_api_rest r = true
               /\ error_message r = Some m.

(** What an optional [extractedData] holds under a key. *)
Definition stored (data : option JsObject) (key : jsstring) : option JsValue :=
  match data with
  | Some d => own_property d key
  | None => None
  end.

(* ================================================================== *)
(** * Properties *)

(** ** Strings *)

Lemma jsstring_eqb_eq (a b : jsstring) : jsstring_eqb a b = true <-> a = b.
Proof.
  unfold jsstring_eqb. destruct (list_eq_dec N.eq_dec a b); split; congruence.
Qed.

Lemma jsstring_eqb_refl (a : jsstring) : jsstring_eqb a a = true.
Proof. now apply jsstring_eqb_eq. Qed.

Lemma jsstring_eqb_neq (a b : jsstring) : a <> b -> jsstring_eqb a b = false.
Proof.
  intros H. destruct (jsstring_eqb a b) eqn:E; [|reflexivity].
  apply jsstring_eqb_eq in E. contradiction.
Qed.

Example maskCpf_short : maskCpf (js "123") = js "***.***.***-**".
Proof. reflexivity. Qed.

Example maskCpf_full : maskCpf (js "123.456.789-00") = js "123.***.***.00".
Proof. reflexivity. Qed.

Example sanitizeUrl_cpf :
  sanitizeUrl (js "https://x/{cpf}") [(js "cpf", js "123.456.789-00")]
  = Return (js "https://x/12345678900").
Proof. reflexivity. Qed.

Example sanitizeUrl_twice :
  sanitizeUrl (js "https://x/{cpf}/{cpf}") [(js "cpf", js "1 2")]
  = Return (js "https://x/1%202/{cpf}").
Proof. reflexivity. Qed.

Example encode_e_acute :
  encodeURIComponent [233%N] = Return (js "%C3%A9").
Proof. reflexivity. Qed.

Example encode_emoji :
  encodeURIComponent [55357%N; 56832%N] = Return (js "%F0%9F%98%80").
Proof. reflexivity. Qed.

Example encode_lone : encodeURIComponent [55357%N] = Throw URIError.
Proof. reflexivity. Qed.

(** ** [replace], [encodeURIComponent] *)

Lemma remove_all_filter (matches : code_unit -> bool) (s : jsstring) :
  remove_all matches s = filter (fun c => negb (matches c)) s.
Proof.
  induction s as [|c s IH]; simpl; [reflexivity|].
  destruct (matches c); simpl; now rewrite IH.
Qed.


(** What [replace] does at the first occurrence, whatever follows it:
    the text after the occurrence is copied as it is. *)
Lemma String_replace_first (pat rep before after : jsstring) :
  (forall k, (k < List.length before)%nat ->
             starts_with pat (skipn k (before ++ pat ++ after)) = false) ->
  String_replace pat rep (before ++ pat ++ after) = before ++ rep ++ after.
Proof.
  assert (Hsw : forall p s, starts_with p (p ++ s) = true).
  { induction p as [|a p IH]; intros s; simpl; [reflexivity|].
    now rewrite N.eqb_refl, IH. }
  assert (Hsk : forall (p s : jsstring), skipn (List.length p) (p ++ s) = s).
  { induction p as [|a p IH]; intros s; simpl; [reflexivity|apply IH]. }
  induction before as [|c before IH]; intros H.
  - simpl app at 1.
    destruct (pat ++ after) as [|x l] eqn:E.
    + destruct pat; [|discriminate]. simpl in E. subst after. reflexivity.
    + simpl. rewrite <- E, Hsw, Hsk. reflexivity.
  - simpl. pose proof (H 0%nat ltac:(simpl; lia)) as H0. simpl in H0.
    rewrite H0. f_equal. apply IH. intros k Hk.
    exact (H (S k) ltac:(simpl; lia)).
Qed.

Lemma hex_digit_shape (n : N) :
  (n < 16)%N -> is_percent_or_hex (hex_digit n) = true.
Proof.
  intros H. unfold is_percent_or_hex, hex_digit, is_digit.
  destruct (n <? 10)%N eqn:E.
  - apply N.ltb_lt in E.
    replace ((48 <=? 48 + n)%N) with true by (symmetry; apply N.leb_le; lia).
    replace ((48 + n <=? 57)%N) with true by (symmetry; apply N.leb_le; lia).
    simpl. now rewrite orb_true_r.
  - apply N.ltb_ge in E.
    replace ((65 <=? 55 + n)%N) with true by (symmetry; apply N.leb_le; lia).
    replace ((55 + n <=? 70)%N) with true by (symmetry; apply N.leb_le; lia).
    simpl. now rewrite !orb_true_r.
Qed.

Lemma utf8_bytes (cp : N) :
  (cp < 1114112)%N -> Forall (fun b => (b < 256)%N) (utf8 cp).
Proof.
  intros H. unfold utf8.
  destruct (cp <? 128)%N eqn:E1; [apply N.ltb_lt in E1; repeat constructor; lia|].
  destruct (cp <? 2048)%N eqn:E2.
  { apply N.ltb_lt in E2.
    pose proof (N.mod_lt cp 64 ltac:(lia)).
    assert (cp / 64 < 32)%N by (apply N.Div0.div_lt_upper_bound; lia).
    repeat constructor; lia. }
  destruct (cp <? 65536)%N eqn:E3.
  { apply N.ltb_lt in E3.
    pose proof (N.mod_lt cp 64 ltac:(lia)).
    pose proof (N.mod_lt (cp / 64) 64 ltac:(lia)).
    assert (cp / 4096 < 16)%N by (apply N.Div0.div_lt_upper_bound; lia).
    repeat constructor; lia. }
  pose proof (N.mod_lt cp 64 ltac:(lia)).
  pose proof (N.mod_lt (cp / 64) 64 ltac:(lia)).
  pose proof (N.mod_lt (cp / 4096) 64 ltac:(lia)).
  assert (cp / 262144 < 8)%N by (apply N.Div0.div_lt_upper_bound; lia).
  repeat constructor; lia.
Qed.

Lemma percent_shape (b : N) :
  (b < 256)%N -> forallb is_percent_or_hex (percent b) = true.
Proof.
  intros H. unfold percent. simpl.
  rewrite !hex_digit_shape; [reflexivity| |].
  - apply N.mod_lt. lia.
  - apply N.Div0.div_lt_upper_bound. lia.
Qed.

Lemma percent_encode_shape (cp : N) :
  (cp < 1114112)%N -> forallb is_percent_or_hex (percent_encode cp) = true.
Proof.
  intros H. unfold percent_encode.
  pose proof (utf8_bytes H) as Hb.
  induction Hb as [|b l Hb _ IH]; [reflexivity|].
  cbn [flat_map]. rewrite forallb_app, IH, andb_true_r. now apply percent_shape.
Qed.

(** Every character of an [encodeURIComponent] output is unreserved, a
    [%] or a hexadecimal digit. *)
Lemma encodeURIComponent_shape (s out : jsstring) :
  well_formed s ->
  encodeURIComponent s = Return out ->
  forallb (fun c => is_unreserved c || is_percent_or_hex c) out = true.
Proof.
  assert (Hw : forall l, forallb is_percent_or_hex l = true ->
    forallb (fun c => is_unreserved c || is_percent_or_hex c) l = true).
  { induction l as [|x l IH]; simpl; [reflexivity|].
    intros H. apply andb_true_iff in H as [H1 H2].
    now rewrite H1, IH, orb_true_r. }
  remember (List.length s) as n eqn:Hn.
  revert s out Hn.
  induction n as [n IHn] using lt_wf_ind. intros s out Hn Hwf.
  destruct s as [|c rest]; simpl.
  - intros H. now inversion H.
  - inversion Hwf as [|? ? Hc Hrest]; subst.
    destruct (is_unreserved c) eqn:Eu.
    + destruct (encodeURIComponent rest) as [r|] eqn:Er; simpl; [|discriminate].
      intros H. inversion H; subst out. simpl. rewrite Eu. simpl.
      eapply (IHn (List.length rest));
        [simpl; lia|reflexivity|exact Hrest|exact Er].
    + destruct (is_low_surrogate c) eqn:El; [discriminate|].
      destruct (is_high_surrogate c) eqn:Eh.
      * destruct rest as [|d rest']; [discriminate|].
        inversion Hrest as [|? ? Hd Hrest']; subst.
        destruct (is_low_surrogate d) eqn:Ed; [|discriminate].
        destruct (encodeURIComponent rest') as [r|] eqn:Er; simpl; [|discriminate].
        intros H. inversion H; subst out.
        rewrite forallb_app. apply andb_true_iff. split.
        -- apply Hw, percent_encode_shape.
           unfold is_high_surrogate in Eh. unfold is_low_surrogate in Ed.
           apply andb_true_iff in Eh as [Eh1 Eh2].
           apply andb_true_iff in Ed as [Ed1 Ed2].
           apply N.leb_le in Eh1, Eh2, Ed1, Ed2. lia.
        -- eapply (IHn (List.length rest'));
             [simpl; lia|reflexivity|exact Hrest'|exact Er].
      * destruct (encodeURIComponent rest) as [r|] eqn:Er; simpl; [|discriminate].
        intros H. inversion H; subst out.
        rewrite forallb_app. apply andb_true_iff. split.
        -- apply Hw, percent_encode_shape. lia.
        -- eapply (IHn (List.length rest));
             [simpl; lia|reflexivity|exact Hrest|exact Er].
Qed.

(** No [$] in an [encodeURIComponent] output: [replace] takes it
    literally. *)
Lemma encodeURIComponent_no_dollar (s out : jsstring) :
  well_formed s ->
  encodeURIComponent s = Return out ->
  ~ In 36%N out.
Proof.
  intros Hwf H Hin.
  pose proof (encodeURIComponent_shape Hwf H) as Hs.
  rewrite forallb_forall in Hs. specialize (Hs _ Hin). discriminate Hs.
Qed.



(** ** [maskCpf] *)

Lemma digits_of (cpf : jsstring) :
  remove_all is_non_digit cpf = filter is_digit cpf.
Proof.
  rewrite remove_all_filter. apply filter_ext. intros c.
  unfold is_non_digit. apply negb_involutive.
Qed.

(** Fewer than eleven digits: everything is masked. *)
Lemma maskCpf_fewer_than_11 (cpf : jsstring) :
  (List.length (filter is_digit cpf) < 11)%nat ->
  maskCpf cpf = js "***.***.***-**".
Proof.
  intros H. unfold maskCpf. rewrite digits_of.
  apply Nat.ltb_lt in H. now rewrite H.
Qed.

(** Eleven digits or more: the first three digits, the two masked
    groups, then a DOT and the tenth and eleventh digits. *)
Lemma maskCpf_11_or_more (cpf : jsstring) :
  (11 <= List.length (filter is_digit cpf))%nat ->
  maskCpf cpf =
    firstn 3 (filter is_digit cpf) ++ js ".***.***."
    ++ firstn 2 (skipn 9 (filter is_digit cpf)).
Proof.
  intros H. unfold maskCpf. rewrite digits_of.
  apply Nat.ltb_ge in H. now rewrite H.
Qed.

(** C9 (the code departs from the claim).  On the input of the claim,
    ["123.456.789-00"], [maskCpf] returns ["123.***.***.00"]: the last
    group follows a dot, not the hyphen of the canonical format (and of
    the fully masked placeholder, which the short input does get). *)
Theorem C9_maskCpf_dot_before_last_group :
  maskCpf (js "123.456.789-00") = js "123.***.***.00"
  /\ maskCpf (js "123.456.789-00") <> js "123.***.***-00"
  /\ maskCpf (js "123") = js "***.***.***-**".
Proof.
  split; [reflexivity|]. split; [|reflexivity].
  intros H. vm_compute in H. discriminate H.
Qed.

(** ** [sanitizeUrl] *)

(** A record with one entry: the first occurrence of the placeholder is
    replaced, and the text after it is copied as it stands, further
    occurrences included. *)
Lemma sanitizeUrl_single_entry (before after key v encoded : jsstring) :
  let placeholder := js "{" ++ key ++ js "}" in
  (forall k, (k < List.length before)%nat ->
     starts_with placeholder (skipn k (before ++ placeholder ++ after)) = false) ->
  encodeURIComponent
    (if jsstring_eqb key (js "cpf") then remove_all is_dot_or_hyphen v else v)
    = Return encoded ->
  sanitizeUrl (before ++ placeholder ++ after) [(key, v)]
  = Return (before ++ encoded ++ after).
Proof.
  intros placeholder Hfirst Henc. subst placeholder.
  cbn [sanitizeUrl sanitizeUrl_step exc_bind]. rewrite Henc.
  cbn [exc_bind]. now rewrite String_replace_first.
Qed.

(** C7 (the code departs from the claim).  A template that names
    [{cpf}] twice keeps the second placeholder: [String.replace] with a
    string pattern stops after the first occurrence. *)
Theorem C7_sanitizeUrl_second_occurrence_kept :
  sanitizeUrl (js "https://x/{cpf}/check?id={cpf}")
              [(js "cpf", js "12345678900")]
  = Return (js "https://x/12345678900/check?id={cpf}").
Proof. reflexivity. Qed.




(** ** One rule: [validateExternalApi] *)

Lemma includes_status_In (l : list Z) (status : Z) :
  includes_status l status = true <-> In status l.
Proof.
  unfold includes_status. rewrite existsb_exists. split.
  - intros [x [Hx E]]. apply Z.eqb_eq in E. now subst.
  - intros H. exists status. split; [exact H|apply Z.eqb_refl].
Qed.

(** Once the request is built and [fetch] has ended, the result is the
    interpretation of its outcome; the outer handler is not entered. *)
Lemma validateExternalApi_outcome (rev : Revision) (World : Type)
  (fetch : Request -> World -> FetchOutcome * World)
  (rule : EligibilityRule) (athlete : AthleteData)
  (w w' : World) (req : Request) (o : FetchOutcome) :
  prepareRequest rev rule athlete = Return req ->
  fetch req w = (o, w') ->
  validateExternalApi rev fetch rule athlete w
  = (Return match o with
            | Rejected _ => on_error_result rule
            | Responded status json => interpretResponse rev rule status json
            end, w').
Proof.
  intros Hp Hf. destruct rev; simpl in Hp |- *.
  - unfold V1.validateExternalApi, V1.validateExternalApi_body,
      try_catch, bind, lift, ret.
    rewrite Hp, Hf. now destruct o.
  - unfold V2.validateExternalApi, V2.validateExternalApi_body,
      try_catch, bind, lift, ret.
    rewrite Hp, Hf. now destruct o.
Qed.

(** An exception while the request is built ends in the outer handler,
    before any call to the network. *)
Lemma validateExternalApi_handler (rev : Revision) (World : Type)
  (fetch : Request -> World -> FetchOutcome * World)
  (rule : EligibilityRule) (athlete : AthleteData) (w : World) (e : JsError) :
  prepareRequest rev rule athlete = Throw e ->
  validateExternalApi rev fetch rule athlete w
  = (Return (on_error_result rule), w).
Proof.
  intros Hp. destruct rev; simpl in Hp |- *.
  - unfold V1.validateExternalApi, V1.validateExternalApi_body,
      try_catch, bind, lift, ret.
    now rewrite Hp.
  - unfold V2.validateExternalApi, V2.validateExternalApi_body,
      try_catch, bind, lift, ret.
    now rewrite Hp.
Qed.

Lemma validateExternalApi_returns (rev : Revision) (World : Type)
  (fetch : Request -> World -> FetchOutcome * World)
  (rule : EligibilityRule) (athlete : AthleteData) (w : World) :
  exists result w',
    validateExternalApi rev fetch rule athlete w = (Return result, w').
Proof.
  destruct (prepareRequest rev rule athlete) as [req|e] eqn:Hp.
  - destruct (fetch req w) as [o w'] eqn:Hf.
    eexists. exists w'. exact (validateExternalApi_outcome rev fetch rule athlete w Hp Hf).
  - eexists. exists w. exact (validateExternalApi_handler rev fetch rule athlete w Hp).
Qed.

(** The verdict on a 404. *)
Lemma interpretResponse_404 (rev : Revision) (rule : EligibilityRule)
  (json : option JsValue) :
  interpretResponse rev rule 404 json = ineligible rule.
Proof. destruct rev; reflexivity. Qed.

(** The verdict on a 5xx. *)
Lemma interpretResponse_5xx (rev : Revision) (rule : EligibilityRule)
  (status : Z) (json : option JsValue) :
  (500 <= status)%Z ->
  interpretResponse rev rule status json = on_error_result rule.
Proof.
  intros H.
  assert (E4 : Z.eqb status 404 = false) by (apply Z.eqb_neq; lia).
  assert (E5 : Z.leb 500 status = true) by (apply Z.leb_le; lia).
  destruct rev; simpl; unfold V1.interpretResponse, V2.interpretResponse;
    now rewrite E4, E5.
Qed.

(** The verdict of an [http_status] rule on any other status. *)
Lemma interpretResponse_http_status (rev : Revision) (rule : EligibilityRule)
  (status : Z) (json : option JsValue) :
  mode (validation rule) = js "http_status" ->
  status <> 404%Z -> (status < 500)%Z ->
  interpretResponse rev rule status json
  = if includes_status (allowedStatuses_of rule) status
    then {| ok := true; message := None;
            extractedData := extractedData (interpretResponse rev rule status json) |}
    else ineligible rule.
Proof.
  intros Hm H4 H5.
  assert (E4 : Z.eqb status 404 = false) by (apply Z.eqb_neq; lia).
  assert (E5 : Z.leb 500 status = false) by (apply Z.leb_gt; lia).
  destruct rev; simpl.
  - unfold V1.interpretResponse. rewrite E4, E5, Hm. literals.
    now destruct (includes_status _ _).
  - unfold V2.interpretResponse, V2.judge. rewrite E4, E5, Hm. literals.
    cbn [orb andb].
    destruct (Nat.ltb 0 _); [destruct json|];
      now destruct (includes_status _ _).
Qed.

(** C3.  A response with status 404 makes the rule fail with
    [rule.errorMessage], whatever [on_error] says: the result does not
    read [on_error] at all. *)
Theorem C3_status_404_is_ineligible_whatever_on_error :
  forall (rev : Revision) (World : Type)
         (fetch : Request -> World -> FetchOutcome * World)
         (rule : EligibilityRule) (athlete : AthleteData)
         (w w' : World) (req : Request) (json : option JsValue),
    prepareRequest rev rule athlete = Return req ->
    fetch req w = (Responded 404 json, w') ->
    validateExternalApi rev fetch rule athlete w
    = (Return {| ok := false; message := error_message rule;
                 extractedData := None |}, w').
Proof.
  intros rev World fetch rule athlete w w' req json Hp Hf.
  rewrite (validateExternalApi_outcome rev fetch rule athlete w Hp Hf).
  now rewrite interpretResponse_404.
Qed.

(** C3 under [allow] (revised engine) and under [block] (original). *)
Lemma C3_status_404_witness :
  (validateExternalApi Revised (always (Responded 404 None))
     (rule_with (by_status None) (js "allow")) ana tt
   = (Return {| ok := false; message := Some not_eligible_message;
                extractedData := None |}, tt))
  /\ (validateExternalApi Original (always (Responded 404 None))
        (rule_with (by_status None) (js "block")) ana tt
      = (Return {| ok := false; message := Some not_eligible_message;
                   extractedData := None |}, tt)).
Proof.
  split.
  - eapply (C3_status_404_is_ineligible_whatever_on_error Revised
              (always (Responded 404 None))
              (rule_with (by_status None) (js "allow")) ana tt);
      reflexivity.
  - eapply (C3_status_404_is_ineligible_whatever_on_error Original
              (always (Responded 404 None))
              (rule_with (by_status None) (js "block")) ana tt);
      reflexivity.
Defined.

(** C1, the claim as stated fails on two responses obtained without
    transport error.  A 404 is ineligible although 404 is on the
    allow-list; a 503 under [on_error = 'allow'] is let through although
    503 is not on the (default) allow-list. *)
Lemma C1_counterexample_404_listed_and_503_allowed :
  (validateExternalApi Revised (always (Responded 404 None))
     (rule_with (by_status (Some [200; 404]%Z)) (js "block")) ana tt
   = (Return {| ok := false; message := Some not_eligible_message;
                extractedData := None |}, tt)
   /\ In 404%Z [200; 404]%Z)
  /\ (validateExternalApi Revised (always (Responded 503 None))
        (rule_with (by_status None) (js "allow")) ana tt
      = (Return {| ok := true; message := Some unavailable_message;
                   extractedData := None |}, tt)
      /\ (In 503%Z [200%Z] -> False)).
Proof.
  split; split.
  - reflexivity.
  - simpl. auto.
  - reflexivity.
  - simpl. intros [H|[]]. discriminate H.
Qed.

(** C1 (amended).  For a rule in [http_status] mode and a response whose
    status is neither 404 nor 5xx, the rule passes if and only if the
    status is on [allowed_status] ([[200]] when unset); off the list, the
    result is [{ok: false, message: rule.errorMessage}]. *)
Theorem C1_http_status_passes_iff_status_allowed :
  forall (rev : Revision) (World : Type)
         (fetch : Request -> World -> FetchOutcome * World)
         (rule : EligibilityRule) (athlete : AthleteData)
         (w w' : World) (req : Request) (status : Z) (json : option JsValue),
    mode (validation rule) = js "http_status" ->
    prepareRequest rev rule athlete = Return req ->
    fetch req w = (Responded status json, w') ->
    status <> 404%Z -> (status < 500)%Z ->
    let allowed := match allowed_status (validation rule) with
                   | Some l => l
                   | None => [200%Z]
                   end in
    exists result,
      validateExternalApi rev fetch rule athlete w = (Return result, w')
      /\ (ok result = true <-> In status allowed)
      /\ (~ In status allowed ->
          result = {| ok := false; message := error_message rule;
                      extractedData := None |}).
Proof.
  intros rev World fetch rule athlete w w' req status json Hm Hp Hf H4 H5 allowed.
  eexists. split.
  - exact (validateExternalApi_outcome rev fetch rule athlete w Hp Hf).
  - cbv beta iota. rewrite (interpretResponse_http_status rev rule json Hm H4 H5).
    change allowed with (allowedStatuses_of rule).
    destruct (includes_status (allowedStatuses_of rule) status) eqn:E.
    + apply includes_status_In in E. split.
      * simpl. tauto.
      * intros Hn. contradiction.
    + assert (Hn : ~ In status (allowedStatuses_of rule)).
      { intros Hin. apply includes_status_In in Hin. congruence. }
      split; [|reflexivity]. simpl. split; [discriminate|contradiction].
Qed.

(** C1 at status 204 with the allow-list [[200, 204]]. *)
Lemma C1_http_status_witness :
  exists result,
    validateExternalApi Revised (always (Responded 204 None))
      (rule_with (by_status (Some [200; 204]%Z)) (js "block")) ana tt
    = (Return result, tt)
    /\ (ok result = true <-> In 204%Z [200; 204]%Z)
    /\ (~ In 204%Z [200; 204]%Z ->
        result = {| ok := false; message := Some not_eligible_message;
                    extractedData := None |}).
Proof.
  refine (C1_http_status_passes_iff_status_allowed Revised
            (always (Responded 204 None))
            (rule_with (by_status (Some [200; 204]%Z)) (js "block")) ana tt
            (req := {| req_url := js "https://x/12345678900";
                       req_method := js "GET";
                       req_headers := [(js "Accept", js "application/json")];
                       req_body := None; req_timeout_ms := 3000 |})
            (json := None) _ _ _ _ _).
  - reflexivity.
  - reflexivity.
  - reflexivity.
  - discriminate.
  - reflexivity.
Defined.

(** The verdict of a [json_compare] rule in the original engine: the
    strict comparison, on every parsed body. *)
Lemma Original_json_compare (rule : EligibilityRule) (status : Z)
  (body : JsValue) :
  mode (validation rule) = js "json_compare" ->
  status <> 404%Z -> (status < 500)%Z ->
  V1.interpretResponse rule status (Some body)
  = if strict_eq (getNestedValue body (string_or (path (validation rule)) []))
                 (value (validation rule))
    then {| ok := true; message := None; extractedData := None |}
    else ineligible rule.
Proof.
  intros Hm H4 H5.
  assert (E4 : Z.eqb status 404 = false) by (apply Z.eqb_neq; lia).
  assert (E5 : Z.leb 500 status = false) by (apply Z.leb_gt; lia).
  unfold V1.interpretResponse. rewrite E4, E5, Hm. literals. reflexivity.
Qed.

(** In the revised engine the comparison is made on truthy bodies... *)
Lemma Revised_json_compare_truthy_body (rule : EligibilityRule) (status : Z)
  (body : JsValue) :
  mode (validation rule) = js "json_compare" ->
  status <> 404%Z -> (status < 500)%Z ->
  truthy body = true ->
  V2.interpretResponse rule status (Some body)
  = if strict_eq (getNestedValue body (string_or (path (validation rule)) []))
                 (value (validation rule))
    then {| ok := true; message := None;
            extractedData :=
              if Nat.ltb 0 (List.length (V2.saveFields_of rule))
              then Some (V2.extractFields body (V2.saveFields_of rule))
              else None |}
    else ineligible rule.
Proof.
  intros Hm H4 H5 Ht.
  assert (E4 : Z.eqb status 404 = false) by (apply Z.eqb_neq; lia).
  assert (E5 : Z.leb 500 status = false) by (apply Z.leb_gt; lia).
  unfold V2.interpretResponse, V2.judge. rewrite E4, E5, Hm, Ht. literals.
  reflexivity.
Qed.

(** ... and skipped on falsy ones ([null], [false], [0], [""]), which
    pass whatever [path] and [value] are. *)
Lemma Revised_json_compare_falsy_body (rule : EligibilityRule) (status : Z)
  (body : JsValue) :
  mode (validation rule) = js "json_compare" ->
  status <> 404%Z -> (status < 500)%Z ->
  truthy body = false ->
  V2.interpretResponse rule status (Some body)
  = {| ok := true; message := None; extractedData := None |}.
Proof.
  intros Hm H4 H5 Ht.
  assert (E4 : Z.eqb status 404 = false) by (apply Z.eqb_neq; lia).
  assert (E5 : Z.leb 500 status = false) by (apply Z.leb_gt; lia).
  unfold V2.interpretResponse, V2.judge. rewrite E4, E5, Hm, Ht. literals.
  reflexivity.
Qed.

(** C2 (the revised engine departs from the claim).  The rule expects
    [apto === true]; the server answers 200 with the JSON body [null].
    The path resolves to [undefined], which is not strictly equal to
    [true], yet the revised engine returns [{ok: true}]: its test
    [mode === 'json_compare' && responseData] skips the comparison on a
    falsy body.  The original engine, on the same input, returns
    [{ok: false, message: rule.errorMessage}]. *)
Theorem C2_json_compare_null_body_passes_unchecked :
  let rule := rule_with (by_json (js "apto") (JBool true)) (js "block") in
  validateExternalApi Revised (always (Responded 200 (Some JNull))) rule ana tt
  = (Return {| ok := true; message := None; extractedData := None |}, tt)
  /\ strict_eq (getNestedValue JNull (js "apto")) (JBool true) = false
  /\ validateExternalApi Original (always (Responded 200 (Some JNull))) rule ana tt
     = (Return {| ok := false; message := Some not_eligible_message;
                  extractedData := None |}, tt).
Proof. repeat split. Qed.

(** The verdict when the body of a [json_compare] rule does not parse. *)
Lemma interpretResponse_parse_failure (rev : Revision) (rule : EligibilityRule)
  (status : Z) :
  mode (validation rule) = js "json_compare" ->
  status <> 404%Z -> (status < 500)%Z ->
  interpretResponse rev rule status None = on_error_result rule.
Proof.
  intros Hm H4 H5.
  assert (E4 : Z.eqb status 404 = false) by (apply Z.eqb_neq; lia).
  assert (E5 : Z.leb 500 status = false) by (apply Z.leb_gt; lia).
  destruct rev; simpl; unfold V1.interpretResponse, V2.interpretResponse;
    rewrite E4, E5, Hm; literals; reflexivity.
Qed.

(** C4.  On an infrastructure failure (network error, timeout, status
    500 or more, body of a [json_compare] rule that does not parse) the
    result follows [on_error]: ['allow'] gives [ok = true] with the
    temporarily-unavailable message; anything else gives [ok = false]
    with [rule.errorMessage], or with the generic message when
    [errorMessage] is unset (or empty). *)
Theorem C4_infrastructure_failure_follows_on_error :
  forall (rev : Revision) (World : Type)
         (fetch : Request -> World -> FetchOutcome * World)
         (rule : EligibilityRule) (athlete : AthleteData)
         (w w' : World) (req : Request) (outcome : FetchOutcome),
    prepareRequest rev rule athlete = Return req ->
    fetch req w = (outcome, w') ->
    InfrastructureFailure rule outcome ->
    validateExternalApi rev fetch rule athlete w
    = (Return
         (if jsstring_eqb (on_error rule) (js "allow")
          then {| ok := true; message := Some unavailable_message;
                  extractedData := None |}
          else {| ok := false;
                  message := Some match error_message rule with
                                  | Some (c :: m) => c :: m
                                  | Some [] | None => unexpected_message
                                  end;
                  extractedData := None |}), w').
Proof.
  intros rev World fetch rule athlete w w' req outcome Hp Hf Hi.
  rewrite (validateExternalApi_outcome rev fetch rule athlete w Hp Hf).
  assert (E : on_error_result rule
    = if jsstring_eqb (on_error rule) (js "allow")
      then {| ok := true; message := Some unavailable_message;
              extractedData := None |}
      else {| ok := false;
              message := Some match error_message rule with
                              | Some (c :: m) => c :: m
                              | Some [] | None => unexpected_message
                              end;
              extractedData := None |}).
  { unfold on_error_result, string_or.
    destruct (jsstring_eqb _ _); [reflexivity|].
    destruct (error_message rule) as [[|c m]|]; reflexivity. }
  rewrite <- E.
  destruct Hi as [name|status json H5|status Hm H4 H5].
  - reflexivity.
  - now rewrite interpretResponse_5xx.
  - now rewrite interpretResponse_parse_failure.
Qed.

(** C4 at one failure of each kind. *)
Lemma C4_infrastructure_failure_witness :
  (* a timeout under [allow] *)
  validateExternalApi Revised (always (Rejected (js "AbortError")))
    (rule_with (by_status None) (js "allow")) ana tt
  = (Return {| ok := true; message := Some unavailable_message;
               extractedData := None |}, tt)
  (* a 500 under [block] *)
  /\ validateExternalApi Revised (always (Responded 500 None))
       (rule_with (by_status None) (js "block")) ana tt
     = (Return {| ok := false; message := Some not_eligible_message;
                  extractedData := None |}, tt)
  (* an unparseable body under [json_compare] and [block] *)
  /\ validateExternalApi Original (always (Responded 200 None))
       (rule_with (by_json (js "apto") (JBool true)) (js "block")) ana tt
     = (Return {| ok := false; message := Some not_eligible_message;
                  extractedData := None |}, tt).
Proof.
  split; [|split].
  - refine (@C4_infrastructure_failure_follows_on_error Revised unit
              (always (Rejected (js "AbortError")))
              (rule_with (by_status None) (js "allow")) ana tt tt
              {| req_url := js "https://x/12345678900";
                         req_method := js "GET";
                         req_headers := [(js "Accept", js "application/json")];
                         req_body := None; req_timeout_ms := 3000 |}
              (Rejected (js "AbortError")) _ _ _).
    + reflexivity.
    + reflexivity.
    + apply network_error_or_timeout.
  - refine (@C4_infrastructure_failure_follows_on_error Revised unit
              (always (Responded 500 None))
              (rule_with (by_status None) (js "block")) ana tt tt
              {| req_url := js "https://x/12345678900";
                         req_method := js "GET";
                         req_headers := [(js "Accept", js "application/json")];
                         req_body := None; req_timeout_ms := 3000 |}
              (Responded 500 None) _ _ _).
    + reflexivity.
    + reflexivity.
    + apply server_error. lia.
  - refine (@C4_infrastructure_failure_follows_on_error Original unit
              (always (Responded 200 None))
              (rule_with (by_json (js "apto") (JBool true)) (js "block")) ana tt tt
              {| req_url := js "https://x/12345678900";
                         req_method := js "GET";
                         req_headers := [(js "Accept", js "application/json")];
                         req_body := None; req_timeout_ms := 3000 |}
              (Responded 200 None) _ _ _).
    + reflexivity.
    + reflexivity.
    + apply json_parse_failure; [reflexivity|discriminate|reflexivity].
Defined.

(** The verdict of a rule whose mode the engine does not know. *)
Lemma interpretResponse_unknown_mode (rev : Revision) (rule : EligibilityRule)
  (status : Z) (json : option JsValue) :
  mode (validation rule) <> js "http_status" ->
  mode (validation rule) <> js "json_compare" ->
  status <> 404%Z -> (status < 500)%Z ->
  interpretResponse rev rule status json
  = {| ok := true; message := None;
       extractedData :=
         match rev, json, save_fields rule with
         | Revised, Some data, Some (f :: fs) =>
             if truthy data then Some (V2.extractFields data (f :: fs))
             else None
         | _, _, _ => None
         end |}.
Proof.
  intros Hh Hj H4 H5.
  assert (E4 : Z.eqb status 404 = false) by (apply Z.eqb_neq; lia).
  assert (E5 : Z.leb 500 status = false) by (apply Z.leb_gt; lia).
  apply jsstring_eqb_neq in Hh, Hj.
  destruct rev; simpl.
  - unfold V1.interpretResponse. rewrite E4, E5, Hh, Hj.
    now destruct json as [data|]; [destruct (save_fields rule) as [[|f fs]|]|].
  - unfold V2.interpretResponse, V2.judge, V2.saveFields_of.
    rewrite E4, E5, Hh, Hj. cbn [orb andb].
    destruct (save_fields rule) as [[|f fs]|]; cbn [List.length Nat.ltb Nat.leb];
      destruct json as [data|]; cbn [truthy andb]; try reflexivity;
      try (now rewrite andb_false_r); try (now rewrite andb_true_r).
Qed.

(** C10.  A rule whose [validation.mode] is neither ['http_status'] nor
    ['json_compare'] passes on every response that is neither a 404 nor
    a 5xx, with no message; the revised engine attaches the fields
    extracted from a truthy parsed body when [save_fields] is not
    empty. *)
Theorem C10_unknown_mode_passes :
  forall (rev : Revision) (World : Type)
         (fetch : Request -> World -> FetchOutcome * World)
         (rule : EligibilityRule) (athlete : AthleteData)
         (w w' : World) (req : Request) (status : Z) (json : option JsValue),
    mode (validation rule) <> js "http_status" ->
    mode (validation rule) <> js "json_compare" ->
    prepareRequest rev rule athlete = Return req ->
    fetch req w = (Responded status json, w') ->
    status <> 404%Z -> (status < 500)%Z ->
    validateExternalApi rev fetch rule athlete w
    = (Return
         {| ok := true; message := None;
            extractedData :=
              match rev, json, save_fields rule with
              | Revised, Some data, Some (f :: fs) =>
                  if truthy data then Some (V2.extractFields data (f :: fs))
                  else None
              | _, _, _ => None
              end |}, w').
Proof.
  intros rev World fetch rule athlete w w' req status json Hh Hj Hp Hf H4 H5.
  rewrite (validateExternalApi_outcome rev fetch rule athlete w Hp Hf).
  now rewrite (interpretResponse_unknown_mode rev rule json Hh Hj H4 H5).
Qed.

(** C10 at the mode ['regex_match'] and a 403. *)
Lemma C10_unknown_mode_witness :
  validateExternalApi Revised (always (Responded 403 None))
    (rule_with (by_mode (js "regex_match")) (js "block")) ana tt
  = (Return {| ok := true; message := None; extractedData := None |}, tt).
Proof.
  refine (C10_unknown_mode_passes Revised
            (always (Responded 403 None))
            (rule_with (by_mode (js "regex_match")) (js "block")) ana tt
            (req := {| req_url := js "https://x/12345678900";
                       req_method := js "GET";
                       req_headers := [(js "Accept", js "application/json")];
                       req_body := None; req_timeout_ms := 3000 |})
            (json := None) _ _ _ _ _ _).
  - intros H. vm_compute in H. discriminate H.
  - intros H. vm_compute in H. discriminate H.
  - reflexivity.
  - reflexivity.
  - discriminate.
  - reflexivity.
Defined.

(** ** All rules: [executeEligibilityCheck] *)

Lemma V1_checkRules_returns (World : Type)
  (fetch : Request -> World -> FetchOutcome * World)
  (athlete : AthleteData) (rules : list EligibilityRule) :
  forall (e : bool) (m : list jsstring) (w : World),
  exists verdict w',
    V1.checkRules fetch athlete rules e m w = (Return verdict, w').
Proof.
  induction rules as [|rule rest IH]; intros e m w; simpl.
  - unfold ret. eauto.
  - destruct (jsstring_eqb (type rule) (js "api_rest")); [|apply IH].
    unfold bind.
    destruct (validateExternalApi_returns Original fetch rule athlete w)
      as [result [w1 Hr]].
    simpl in Hr. rewrite Hr.
    destruct (negb (ok result)); apply IH.
Qed.

Lemma V2_checkRules_returns (World : Type)
  (fetch : Request -> World -> FetchOutcome * World)
  (athlete : AthleteData) (rules : list EligibilityRule) :
  forall (e : bool) (m : list jsstring) (x : JsObject) (w : World),
  exists verdict w',
    V2.checkRules fetch athlete rules e m x w = (Return verdict, w').
Proof.
  induction rules as [|rule rest IH]; intros e m x w; simpl.
  - unfold ret. eauto.
  - destruct (jsstring_eqb (type rule) (js "api_rest")); [|apply IH].
    unfold bind.
    destruct (validateExternalApi_returns Revised fetch rule athlete w)
      as [result [w1 Hr]].
    simpl in Hr. rewrite Hr.
    destruct (negb (ok result)); apply IH.
Qed.

(** C5.  No exception escapes: whatever the rule, the athlete record and
    the behaviour of the network, [validateExternalApi] returns a result
    (it never ends in [Throw], although building the request can raise
    [TypeError] or [URIError]), and [executeEligibilityCheck] returns a
    verdict. *)
Theorem C5_no_exception_escapes :
  forall (rev : Revision) (World : Type)
         (fetch : Request -> World -> FetchOutcome * World)
         (athlete : AthleteData) (w : World),
    (forall rule : EligibilityRule,
       exists result w',
         validateExternalApi rev fetch rule athlete w = (Return result, w'))
    /\ (forall rules : list EligibilityRule,
          exists verdict w',
            executeEligibilityCheck rev fetch athlete rules w
            = (Return verdict, w')).
Proof.
  intros rev World fetch athlete w. split.
  - intros rule. apply validateExternalApi_returns.
  - intros rules. destruct rev; simpl.
    + unfold V1.executeEligibilityCheck.
      destruct (Nat.eqb _ 0); [unfold ret; eauto|apply V1_checkRules_returns].
    + unfold V2.executeEligibilityCheck.
      destruct (Nat.eqb _ 0); [unfold ret; eauto|apply V2_checkRules_returns].
Qed.

(** The handler is really entered: a rule without [request] raises
    [TypeError], an athlete name with a lone surrogate raises
    [URIError]; both end as results. *)
Example handler_entered :
  prepareRequest Revised
    (without_request (rule_with (by_status None) (js "allow"))) ana
  = Throw TypeError
  /\ validateExternalApi Revised (always (Responded 200 None))
       (without_request (rule_with (by_status None) (js "allow"))) ana tt
     = (Return {| ok := true; message := Some unavailable_message;
                  extractedData := None |}, tt)
  /\ sanitizeUrl (js "https://x/{nome}") [(js "nome", [55357%N])]
     = Throw URIError.
Proof. repeat split. Qed.

Lemma inactive_isActive (r : EligibilityRule) :
  inactive r <-> isActive r = false.
Proof.
  unfold inactive, isActive. split.
  - intros [H|[H|[rq [H1 H2]]]].
    + now rewrite H.
    + rewrite H. apply andb_false_r.
    + rewrite H1, H2. apply andb_false_r.
  - destruct (enabled r); [|auto]. simpl.
    destruct (request r) as [rq|]; [|auto].
    destruct (url rq) eqn:E; [|discriminate].
    intros _. right. right. now exists rq.
Qed.

(** The verdict reads the rule list through its filter only. *)
Lemma executeEligibilityCheck_filter (rev : Revision) (World : Type)
  (fetch : Request -> World -> FetchOutcome * World)
  (athlete : AthleteData) (rules rules' : list EligibilityRule) :
  filter isActive rules = filter isActive rules' ->
  executeEligibilityCheck rev fetch athlete rules
  = executeEligibilityCheck rev fetch athlete rules'.
Proof.
  intros H. destruct rev; simpl;
    unfold V1.executeEligibilityCheck, V2.executeEligibilityCheck;
    now rewrite H.
Qed.

(** C6.  A rule that is disabled or has no request URL contributes
    nothing: with it or without it, anywhere in the list, the check gives
    the same verdict, the same messages and makes the same calls.  When
    no rule passes the filter the check returns
    [{eligible: true, messages: []}] and calls nothing. *)
Theorem C6_inactive_rules_do_not_contribute :
  forall (rev : Revision) (World : Type)
         (fetch : Request -> World -> FetchOutcome * World)
         (athlete : AthleteData) (w : World),
    (forall (before after : list EligibilityRule) (r : EligibilityRule),
       inactive r ->
       executeEligibilityCheck rev fetch athlete (before ++ r :: after) w
       = executeEligibilityCheck rev fetch athlete (before ++ after) w)
    /\ (forall rules : list EligibilityRule,
          Forall inactive rules ->
          executeEligibilityCheck rev fetch athlete rules w
          = (Return {| eligible := true; messages := [];
                       result_extractedData := None |}, w)).
Proof.
  intros rev World fetch athlete w. split.
  - intros before after r Hr.
    rewrite (executeEligibilityCheck_filter rev fetch athlete
               (before ++ r :: after) (before ++ after)); [reflexivity|].
    rewrite !filter_app. simpl.
    apply inactive_isActive in Hr. now rewrite Hr.
  - intros rules Hall.
    assert (E : filter isActive rules = []).
    { induction Hall as [|r l Hr _ IH]; [reflexivity|].
      simpl. apply inactive_isActive in Hr. now rewrite Hr. }
    destruct rev; simpl;
      unfold V1.executeEligibilityCheck, V2.executeEligibilityCheck;
      now rewrite E.
Qed.

(** C6 with a disabled rule between two failing ones, and with no
    active rule at all. *)
Lemma C6_inactive_rules_witness :
  let failing := rule_with (by_status None) (js "block") in
  let script := [Responded 404 None; Responded 200 None] in
  executeEligibilityCheck Revised scripted ana
    [failing; disabled failing; failing] script
  = executeEligibilityCheck Revised scripted ana [failing; failing] script
  /\ executeEligibilityCheck Revised scripted ana
       [disabled failing; without_request failing] script
     = (Return {| eligible := true; messages := [];
                  result_extractedData := None |}, script).
Proof.
  intros failing script.
  pose proof (C6_inactive_rules_do_not_contribute Revised scripted ana script)
    as [Hskip Hnone].
  split.
  - apply (Hskip [failing] [failing] (disabled failing)).
    unfold inactive. left. reflexivity.
  - apply Hnone. constructor; [|constructor; [|constructor]].
    + unfold inactive. left. reflexivity.
    + unfold inactive. right. left. reflexivity.
Defined.

(** ** The engine on the scenarios of its test plan *)

Example getNestedValue_paths :
  getNestedValue (on_file (JBool true) (js "A")) (js "apto") = JBool true
  /\ getNestedValue (JObj [(js "a", JObj [(js "b", JNum 7)])]) (js "a.b")
     = JNum 7
  /\ getNestedValue (JObj [(js "a", JNull)]) (js "a.b") = JUndefined
  /\ getNestedValue (JObj [(js "l", JArr [JNum 1; JNum 2])]) (js "l.1")
     = JNum 2
  /\ getNestedValue (on_file (JBool true) (js "A")) [] = JUndefined.
Proof. repeat split. Qed.

(** ["true" !== true]. *)
Example strict_eq_is_type_sensitive :
  strict_eq (JStr (js "true")) (JBool true) = false
  /\ strict_eq (JNum 1) (JBool true) = false
  /\ strict_eq (JBool true) (JBool true) = true.
Proof. repeat split. Qed.

Example json_compare_on_file :
  validateExternalApi Revised
    (always (Responded 200 (Some (on_file (JBool true) (js "A")))))
    (rule_with (by_json (js "apto") (JBool true)) (js "block")) ana tt
  = (Return {| ok := true; message := None; extractedData := None |}, tt)
  /\ validateExternalApi Revised
       (always (Responded 200 (Some (on_file (JStr (js "true")) (js "A")))))
       (rule_with (by_json (js "apto") (JBool true)) (js "block")) ana tt
     = (Return {| ok := false; message := Some not_eligible_message;
                  extractedData := None |}, tt).
Proof. repeat split. Qed.

(** Rule 1 passes, rule 2 fails: one message, that of rule 2. *)
Example second_rule_fails :
  executeEligibilityCheck Revised scripted ana
    [rule_saving (by_status None) (js "first") [];
     rule_saving (by_status None) (js "second") []]
    [Responded 200 None; Responded 403 None]
  = (Return {| eligible := false; messages := [js "second"];
               result_extractedData := None |}, []).
Proof. reflexivity. Qed.

(** Two rules extract [categoria]: the later value stays. *)
Example later_extraction_wins :
  executeEligibilityCheck Revised scripted ana
    [rule_saving (by_status None) (js "first") [js "categoria"];
     rule_saving (by_status None) (js "second") [js "categoria"; js "apto"]]
    [Responded 200 (Some (on_file (JBool true) (js "A")));
     Responded 200 (Some (on_file (JBool false) (js "B")))]
  = (Return {| eligible := true; messages := [];
               result_extractedData :=
                 Some [(js "categoria", JStr (js "B"));
                       (js "apto", JBool false)] |}, []).
Proof. reflexivity. Qed.

(** A timeout under [allow] does not block the check; a 500 under
    [block] does, with the rule's message. *)
Example on_error_in_the_check :
  executeEligibilityCheck Original scripted ana
    [rule_with (by_status None) (js "allow")]
    [Rejected (js "AbortError")]
  = (Return {| eligible := true; messages := [];
               result_extractedData := None |}, [])
  /\ executeEligibilityCheck Original scripted ana
       [rule_with (by_status None) (js "block")]
       [Responded 500 None]
     = (Return {| eligible := false; messages := [not_eligible_message];
                  result_extractedData := None |}, []).
Proof. repeat split. Qed.

Example applyAuth_query_key :
  V2.applyAuth (js "https://x/p?a=1") []
    (Some {| auth_type := js "api_key_query"; key_name := None;
             key_value := Some (js "k 1") |})
  = Return (js "https://x/p?a=1&api_key=k%201", [])
  /\ V2.applyAuth (js "https://x/p") []
       (Some {| auth_type := js "bearer_token"; key_name := None;
                key_value := Some (js "t") |})
     = Return (js "https://x/p", [(js "Authorization", js "Bearer t")])
  /\ V2.applyAuth (js "https://x/p") []
       (Some {| auth_type := js "api_key_header"; key_name := None;
                key_value := None |})
     = Return (js "https://x/p", []).
Proof. repeat split. Qed.

(* ================================================================== *)
(** * Further properties *)

(** ** Records *)

Lemma own_property_record_set_same {A} (k : jsstring) (v : A)
  (o : list (jsstring * A)) :
  own_property (record_set k v o) k = Some v.
Proof.
  unfold own_property.
  induction o as [|[k' x] o IH]; simpl.
  - now rewrite jsstring_eqb_refl.
  - destruct (jsstring_eqb k' k) eqn:E; simpl; rewrite E; [reflexivity|exact IH].
Qed.

Lemma own_property_record_set_other {A} (k k' : jsstring) (v : A)
  (o : list (jsstring * A)) :
  k' <> k ->
  own_property (record_set k v o) k' = own_property o k'.
Proof.
  intros Hne. unfold own_property.
  induction o as [|[k0 x] o IH]; simpl.
  - rewrite (jsstring_eqb_neq (a := k) (b := k')); [reflexivity|congruence].
  - destruct (jsstring_eqb k0 k) eqn:E; simpl.
    + apply jsstring_eqb_eq in E. subst k0.
      rewrite (jsstring_eqb_neq (a := k) (b := k')); [reflexivity|congruence].
    + destruct (jsstring_eqb k0 k'); [reflexivity|exact IH].
Qed.

Lemma record_set_keys {A} (k : jsstring) (v : A) (o : list (jsstring * A)) :
  forall k', In k' (map fst (record_set k v o)) <-> k' = k \/ In k' (map fst o).
Proof.
  intros k'. induction o as [|[k0 x] o IH]; simpl.
  - intuition.
  - destruct (jsstring_eqb k0 k) eqn:E; simpl.
    + apply jsstring_eqb_eq in E. subst k0. intuition.
    + rewrite IH. intuition.
Qed.

Lemma record_set_NoDup {A} (k : jsstring) (v : A) (o : list (jsstring * A)) :
  NoDup (map fst o) -> NoDup (map fst (record_set k v o)).
Proof.
  induction o as [|[k0 x] o IH]; simpl; intros H.
  - constructor; [intros []|constructor].
  - inversion H as [|? ? Hn Hd]; subst.
    destruct (jsstring_eqb k0 k) eqn:E; simpl.
    + now constructor.
    + constructor; [|now apply IH].
      rewrite record_set_keys. intros [->|Hin]; [|contradiction].
      now rewrite jsstring_eqb_refl in E.
Qed.

Lemma own_property_None {A} (o : list (jsstring * A)) (k : jsstring) :
  own_property o k = None <-> ~ In k (map fst o).
Proof.
  unfold own_property. induction o as [|[k0 x] o IH]; simpl.
  - intuition.
  - destruct (jsstring_eqb k0 k) eqn:E; simpl.
    + apply jsstring_eqb_eq in E. subst. split; [discriminate|intuition].
    + rewrite IH. split.
      * intros H [->|Hin]; [now rewrite jsstring_eqb_refl in E|contradiction].
      * intuition.
Qed.

Lemma existsb_jsstring_In (k : jsstring) (l : list jsstring) :
  existsb (jsstring_eqb k) l = true <-> In k l.
Proof.
  rewrite existsb_exists. split.
  - intros [x [Hx E]]. apply jsstring_eqb_eq in E. now subst.
  - intros H. exists k. split; [exact H|apply jsstring_eqb_refl].
Qed.



(** ** [getNestedValue] *)

Lemma split_on_nonempty (sep : code_unit) (s : jsstring) : split_on sep s <> [].
Proof.
  destruct s as [|c s]; simpl; [discriminate|].
  destruct (N.eqb c sep); [discriminate|].
  destruct (split_on sep s); discriminate.
Qed.

Lemma split_on_app (sep : code_unit) (p q : jsstring) :
  split_on sep (p ++ sep :: q) = split_on sep p ++ split_on sep q.
Proof.
  induction p as [|c p IH]; simpl.
  - now rewrite N.eqb_refl.
  - destruct (N.eqb c sep); [now rewrite IH|].
    rewrite IH. pose proof (split_on_nonempty sep p) as Hne.
    destruct (split_on sep p) as [|h t]; [contradiction|reflexivity].
Qed.

Lemma getNestedValue_app (obj : JsValue) (p q : jsstring) :
  getNestedValue obj (p ++ js "." ++ q)
  = getNestedValue (getNestedValue obj p) q.
Proof.
  unfold getNestedValue. change (js "." ++ q) with (46%N :: q).
  now rewrite split_on_app, fold_left_app.
Qed.

Lemma getNestedValue_nullish (obj : JsValue) (path : jsstring) :
  is_nullish obj = true -> getNestedValue obj path = JUndefined.
Proof.
  intros Hn. unfold getNestedValue.
  pose proof (split_on_nonempty 46%N path) as Hne.
  destruct (split_on 46%N path) as [|k l]; [contradiction|].
  simpl. rewrite Hn. simpl. clear.
  induction l as [|x l IH]; simpl; [reflexivity|exact IH].
Qed.

(** X1.  Paths compose: resolving [p.q] is resolving [q] in what [p]
    resolves to, for every value and all paths [p] and [q] (dots in [p]
    and [q] included). *)
Theorem X1_getNestedValue_composes :
  forall (obj : JsValue) (p q : jsstring),
    getNestedValue obj (p ++ js "." ++ q)
    = getNestedValue (getNestedValue obj p) q.
Proof. exact getNestedValue_app. Qed.

(** X2.  A path that goes through [null] or through a missing field
    resolves to [undefined], however long it goes on; in particular
    every path into a [null] or [undefined] body does. *)
Theorem X2_getNestedValue_through_null_is_undefined :
  forall (obj : JsValue) (p q : jsstring),
    is_nullish (getNestedValue obj p) = true ->
    getNestedValue obj (p ++ js "." ++ q) = JUndefined
    /\ getNestedValue JNull q = JUndefined
    /\ getNestedValue JUndefined q = JUndefined.
Proof.
  intros obj p q H. split; [|split].
  - rewrite getNestedValue_app. now apply getNestedValue_nullish.
  - now apply getNestedValue_nullish.
  - now apply getNestedValue_nullish.
Qed.

(** X2 at [{"a": null}] and the path [a.b.c]. *)
Lemma X2_getNestedValue_witness :
  getNestedValue (JObj [(js "a", JNull)]) (js "a" ++ js "." ++ js "b.c")
  = JUndefined.
Proof.
  apply (X2_getNestedValue_through_null_is_undefined
           (JObj [(js "a", JNull)]) (js "a") (js "b.c")).
  reflexivity.
Defined.

(** ** [extractFields] and the parameter map *)





(** ** [applyAuth] *)

(** X5.  A missing descriptor, the type ['none'], a missing or empty
    key value (whatever the type), and a type the engine does not know
    all leave the URL and the headers as they are, without error. *)
Theorem X5_applyAuth_passes_through :
  forall (url : jsstring) (headers : StringRecord)
         (auth : option EligibilityRuleAuth),
    (auth = None
     \/ exists a, auth = Some a
        /\ (auth_type a = js "none"
            \/ key_value a = None
            \/ key_value a = Some []
            \/ (auth_type a <> js "api_key_header"
                /\ auth_type a <> js "api_key_query"
                /\ auth_type a <> js "bearer_token"))) ->
    V2.applyAuth url headers auth = Return (url, headers).
Proof.
  intros url headers auth [->|[a [-> H]]]; [reflexivity|].
  unfold V2.applyAuth.
  destruct (jsstring_eqb (auth_type a) (js "none")) eqn:En; [reflexivity|].
  destruct H as [H|[H|[H|[H1 [H2 H3]]]]].
  - rewrite H in En. discriminate En.
  - now rewrite H.
  - now rewrite H.
  - apply jsstring_eqb_neq in H1, H2, H3. rewrite H1, H2, H3.
    now destruct (negb _).
Qed.

(** X5 at a bearer descriptor whose token is empty. *)
Lemma X5_applyAuth_witness :
  V2.applyAuth (js "https://x/p") [(js "Accept", js "application/json")]
    (Some {| auth_type := js "bearer_token"; key_name := None;
             key_value := Some [] |})
  = Return (js "https://x/p", [(js "Accept", js "application/json")]).
Proof.
  apply X5_applyAuth_passes_through. right.
  exists {| auth_type := js "bearer_token"; key_name := None;
            key_value := Some [] |}.
  split; [reflexivity|]. right. right. left. reflexivity.
Defined.

(** X6.  The two header schemes never change the URL and never fail.
    ['api_key_header'] sets the header named by [key_name] (or
    [X-API-Key]) to the key; ['bearer_token'] sets [Authorization] to
    ["Bearer " + key] and ignores [key_name].  A header of that name set
    before is replaced; every other header is kept. *)
Theorem X6_applyAuth_header_schemes :
  forall (url : jsstring) (headers : StringRecord) (a : EligibilityRuleAuth)
         (c : code_unit) (k : jsstring),
    key_value a = Some (c :: k) ->
    auth_type a = js "api_key_header" \/ auth_type a = js "bearer_token" ->
    let name :=
      if jsstring_eqb (auth_type a) (js "bearer_token")
      then js "Authorization"
      else match key_name a with
           | Some (n :: ns) => n :: ns
           | Some [] | None => js "X-API-Key"
           end in
    let content :=
      if jsstring_eqb (auth_type a) (js "bearer_token")
      then js "Bearer " ++ c :: k
      else c :: k in
    exists finalHeaders,
      V2.applyAuth url headers (Some a) = Return (url, finalHeaders)
      /\ own_property finalHeaders name = Some content
      /\ (forall other, other <> name ->
            own_property finalHeaders other = own_property headers other).
Proof.
  intros url headers a c k Hk Ht name content.
  unfold V2.applyAuth. rewrite Hk. cbn [string_or truthy_string negb].
  destruct Ht as [Ht|Ht]; subst name content; rewrite Ht; literals;
    cbv beta iota.
  - eexists. split; [reflexivity|].
    assert (E : (if truthy_string (string_or (key_name a) [])
                 then string_or (key_name a) [] else js "X-API-Key")
                = match key_name a with
                  | Some (n :: ns) => n :: ns
                  | Some [] | None => js "X-API-Key"
                  end).
    { now destruct (key_name a) as [[|n ns]|]. }
    rewrite E. split.
    + apply own_property_record_set_same.
    + intros other Ho. now apply own_property_record_set_other.
  - eexists. split; [reflexivity|]. split.
    + apply own_property_record_set_same.
    + intros other Ho. now apply own_property_record_set_other.
Qed.

(** X6 with a bearer token over a stale [Authorization] header. *)
Lemma X6_applyAuth_witness :
  exists finalHeaders,
    V2.applyAuth (js "https://x/p")
      [(js "Authorization", js "old"); (js "Accept", js "text/plain")]
      (Some {| auth_type := js "bearer_token"; key_name := Some (js "X-K");
               key_value := Some (js "t0k") |})
    = Return (js "https://x/p", finalHeaders)
    /\ own_property finalHeaders (js "Authorization") = Some (js "Bearer t0k")
    /\ (forall other, other <> js "Authorization" ->
          own_property finalHeaders other
          = own_property
              [(js "Authorization", js "old"); (js "Accept", js "text/plain")]
              other).
Proof.
  refine (@X6_applyAuth_header_schemes (js "https://x/p")
            [(js "Authorization", js "old"); (js "Accept", js "text/plain")]
            {| auth_type := js "bearer_token"; key_name := Some (js "X-K");
               key_value := Some (js "t0k") |}
            116%N (js "0k") _ _).
  - reflexivity.
  - right. reflexivity.
Defined.

Lemma encodeURIComponent_no_surrogates (s : jsstring) :
  no_surrogates s = true -> exists out, encodeURIComponent s = Return out.
Proof.
  unfold no_surrogates.
  induction s as [|c s IH]; simpl; intros H; [eauto|].
  apply andb_true_iff in H as [Hc Hs].
  destruct (IH Hs) as [r Hr]. rewrite Hr. simpl.
  apply negb_true_iff, orb_false_iff in Hc as [Hh Hl].
  rewrite Hh, Hl. destruct (is_unreserved c); eauto.
Qed.



(** ** [sanitizeUrl], further *)

Lemma remove_all_forallb (matches p : code_unit -> bool) (s : jsstring) :
  forallb p s = true -> forallb p (remove_all matches s) = true.
Proof.
  induction s as [|c s IH]; simpl; [reflexivity|].
  intros H. apply andb_true_iff in H as [Hc Hs].
  destruct (matches c); simpl; [now apply IH|now rewrite Hc, IH].
Qed.




(** The value [sanitizeUrl] encodes for an entry. *)
Lemma sanitized_value_encodes (key value : jsstring) :
  no_surrogates value = true ->
  exists encoded,
    encodeURIComponent
      (if jsstring_eqb key (js "cpf") then remove_all is_dot_or_hyphen value
       else value) = Return encoded.
Proof.
  intros H. apply encodeURIComponent_no_surrogates.
  destruct (jsstring_eqb key (js "cpf")); [|exact H].
  now apply remove_all_forallb.
Qed.





(** X10.  [sanitizeUrl] fails on no record whose values are free of
    surrogate code units, whatever the template. *)
Theorem X10_sanitizeUrl_returns_on_plain_values :
  forall (params : StringRecord) (baseUrl : jsstring),
    Forall (fun kv => no_surrogates (snd kv) = true) params ->
    exists out, sanitizeUrl baseUrl params = Return out.
Proof.
  intros params.
  induction params as [|[key value] rest IH]; intros baseUrl H.
  - simpl. eauto.
  - inversion H as [|? ? Hv Hrest]; subst. simpl in Hv.
    destruct (sanitized_value_encodes key value Hv) as [encoded He].
    cbn [sanitizeUrl sanitizeUrl_step]. rewrite He. cbn [exc_bind].
    now apply IH.
Qed.

(** X10 at an accented name. *)
Lemma X10_sanitizeUrl_witness :
  exists out,
    sanitizeUrl (js "https://x/{cpf}?n={nome}")
      [(js "cpf", js "123.456.789-00"); (js "nome", js "Jo" ++ [227%N] ++ js "o")]
    = Return out.
Proof.
  apply X10_sanitizeUrl_returns_on_plain_values.
  repeat constructor.
Defined.

(** ** [maskCpf], further *)

Lemma filter_is_digit_idempotent (s : jsstring) :
  filter is_digit (filter is_digit s) = filter is_digit s.
Proof.
  induction s as [|c s IH]; simpl; [reflexivity|].
  destruct (is_digit c) eqn:E; simpl; [rewrite E; now f_equal|exact IH].
Qed.

Lemma count_digits_firstn (n : nat) (s : jsstring) :
  (List.length (filter is_digit (firstn n s)) <= n)%nat.
Proof.
  etransitivity; [apply filter_length_le|].
  rewrite length_firstn. lia.
Qed.

(** X11.  Whatever the input, the masked CPF is 14 characters long and
    shows at most five digits; it depends on the digits of the input
    only, not on its punctuation. *)
Theorem X11_maskCpf_shows_at_most_five_digits :
  forall cpf : jsstring,
    List.length (maskCpf cpf) = 14%nat
    /\ (List.length (filter is_digit (maskCpf cpf)) <= 5)%nat
    /\ maskCpf cpf = maskCpf (filter is_digit cpf).
Proof.
  intros cpf.
  destruct (Nat.ltb (List.length (filter is_digit cpf)) 11) eqn:E.
  - apply Nat.ltb_lt in E.
    rewrite (maskCpf_fewer_than_11 cpf E).
    rewrite (maskCpf_fewer_than_11 (filter is_digit cpf))
      by (now rewrite filter_is_digit_idempotent).
    repeat split. simpl. lia.
  - apply Nat.ltb_ge in E.
    rewrite (maskCpf_11_or_more cpf E).
    rewrite (maskCpf_11_or_more (filter is_digit cpf))
      by (now rewrite filter_is_digit_idempotent).
    rewrite filter_is_digit_idempotent.
    split; [|split; [|reflexivity]].
    + rewrite !length_app, !length_firstn, length_skipn.
      change (List.length (js ".***.***.")) with 9%nat. lia.
    + rewrite !filter_app, !length_app.
      change (filter is_digit (js ".***.***.")) with (@nil code_unit).
      pose proof (count_digits_firstn 3 (filter is_digit cpf)).
      pose proof (count_digits_firstn 2 (skipn 9 (filter is_digit cpf))).
      simpl List.length at 2. lia.
Qed.

(** ** One rule, further *)

Lemma on_error_result_shape (rule : EligibilityRule) :
  well_shaped rule (on_error_result rule).
Proof.
  unfold well_shaped, on_error_result.
  destruct (jsstring_eqb (on_error rule) (js "allow")) eqn:E.
  - apply jsstring_eqb_eq in E. right. left. simpl. auto.
  - right. right. simpl. split; [reflexivity|]. split; [reflexivity|].
    unfold string_or. destruct (error_message rule) as [[|c m]|]; auto.
Qed.

Lemma ineligible_shape (rule : EligibilityRule) :
  well_shaped rule (ineligible rule).
Proof. unfold well_shaped, ineligible. simpl. auto 10. Qed.

Lemma pass_shape (rule : EligibilityRule) (x : option JsObject) :
  well_shaped rule {| ok := true; message := None; extractedData := x |}.
Proof. unfold well_shaped. simpl. auto. Qed.

Lemma interpretResponse_shape (rev : Revision) (rule : EligibilityRule)
  (status : Z) (json : option JsValue) :
  well_shaped rule (interpretResponse rev rule status json).
Proof.
  destruct rev; simpl;
    unfold V1.interpretResponse, V2.interpretResponse, V2.judge;
    repeat match goal with
    | |- well_shaped _ (on_error_result _) => apply on_error_result_shape
    | |- well_shaped _ (ineligible _) => apply ineligible_shape
    | |- well_shaped _ {| ok := true; message := None; extractedData := _ |} =>
        apply pass_shape
    | |- well_shaped _ (if ?b then _ else _) => destruct b
    | |- well_shaped _ (match ?x with Some _ => _ | None => _ end) =>
        destruct x
    | |- well_shaped _ (let _ := _ in _) => cbv zeta
    end.
Qed.

Lemma validateExternalApi_shape (rev : Revision) (World : Type)
  (fetch : Request -> World -> FetchOutcome * World)
  (rule : EligibilityRule) (athlete : AthleteData) (w w' : World)
  (result : ValidationResult) :
  validateExternalApi rev fetch rule athlete w = (Return result, w') ->
  well_shaped rule result.
Proof.
  intros Hrun.
  destruct (prepareRequest rev rule athlete) as [req|e] eqn:Hp.
  - destruct (fetch req w) as [o w1] eqn:Hf.
    rewrite (validateExternalApi_outcome rev fetch rule athlete w Hp Hf)
      in Hrun.
    inversion Hrun; subst. destruct o.
    + apply on_error_result_shape.
    + apply interpretResponse_shape.
  - rewrite (validateExternalApi_handler rev fetch rule athlete w Hp) in Hrun.
    inversion Hrun; subst. apply on_error_result_shape.
Qed.

(** X12.  On every path the result of [validateExternalApi] is of one
    of three kinds: a pass without message; the advisory pass (only
    under [on_error = 'allow']); a failure whose message is
    [rule.error_message] or the generic message.  So a failure never
    carries extracted data, and neither does the advisory pass. *)
Theorem X12_validateExternalApi_result_kinds :
  forall (rev : Revision) (World : Type)
         (fetch : Request -> World -> FetchOutcome * World)
         (rule : EligibilityRule) (athlete : AthleteData) (w w' : World)
         (result : ValidationResult),
    validateExternalApi rev fetch rule athlete w = (Return result, w') ->
    (ok result = true /\ message result = None)
    \/ (ok result = true /\ message result = Some unavailable_message
        /\ extractedData result = None /\ on_error rule = js "allow")
    \/ (ok result = false /\ extractedData result = None
        /\ (message result = error_message rule
            \/ message result = Some unexpected_message)).
Proof.
  intros rev World fetch rule athlete w w' result Hrun.
  exact (validateExternalApi_shape rev fetch rule athlete w Hrun).
Qed.

(** X12 at a 500 under [block]. *)
Lemma X12_validateExternalApi_witness :
  (false = true /\ Some not_eligible_message = None)
  \/ (false = true /\ Some not_eligible_message = Some unavailable_message
      /\ @None JsObject = None /\ js "block" = js "allow")
  \/ (false = false /\ @None JsObject = None
      /\ (Some not_eligible_message = Some not_eligible_message
          \/ Some not_eligible_message = Some unexpected_message)).
Proof.
  exact (@X12_validateExternalApi_result_kinds Revised unit
           (always (Responded 500 None))
           (rule_with (by_status None) (js "block")) ana tt tt
           {| ok := false; message := Some not_eligible_message;
              extractedData := None |}
           eq_refl).
Defined.

(** X13.  A rule without [request] makes no call to the network: the
    [TypeError] of reading [request.params] ends in the outer handler,
    and the result follows [on_error] like any infrastructure
    failure. *)
Theorem X13_rule_without_request_follows_on_error :
  forall (rev : Revision) (World : Type)
         (fetch : Request -> World -> FetchOutcome * World)
         (rule : EligibilityRule) (athlete : AthleteData) (w : World),
    request rule = None ->
    validateExternalApi rev fetch rule athlete w
    = (Return
         (if jsstring_eqb (on_error rule) (js "allow")
          then {| ok := true; message := Some unavailable_message;
                  extractedData := None |}
          else {| ok := false;
                  message := Some match error_message rule with
                                  | Some (c :: m) => c :: m
                                  | Some [] | None => unexpected_message
                                  end;
                  extractedData := None |}), w).
Proof.
  intros rev World fetch rule athlete w Hr.
  assert (Hp : prepareRequest rev rule athlete = Throw TypeError).
  { destruct rev; simpl; unfold V1.prepareRequest, V2.prepareRequest;
      now rewrite Hr. }
  rewrite (validateExternalApi_handler rev fetch rule athlete w Hp).
  unfold on_error_result, string_or.
  destruct (jsstring_eqb _ _); [reflexivity|].
  now destruct (error_message rule) as [[|c m]|].
Qed.

(** X13 on a script that must stay untouched. *)
Lemma X13_rule_without_request_witness :
  validateExternalApi Revised scripted
    (without_request (rule_with (by_status None) (js "block"))) ana
    [Responded 200 None]
  = (Return {| ok := false; message := Some not_eligible_message;
               extractedData := None |}, [Responded 200 None]).
Proof.
  apply (@X13_rule_without_request_follows_on_error Revised
           (list FetchOutcome) scripted
           (without_request (rule_with (by_status None) (js "block"))) ana
           [Responded 200 None]).
  reflexivity.
Defined.

Lemma prepareRequest_with_on_error (rev : Revision) (rule : EligibilityRule)
  (policy : jsstring) (athlete : AthleteData) :
  prepareRequest rev (with_on_error rule policy) athlete
  = prepareRequest rev rule athlete.
Proof. destruct rev; reflexivity. Qed.

(** The verdict on a response either is the [on_error] outcome under
    every policy, or does not depend on the policy. *)
Lemma interpretResponse_policy (rev : Revision) (rule : EligibilityRule)
  (status : Z) (json : option JsValue) :
  (forall p, interpretResponse rev (with_on_error rule p) status json
             = on_error_result (with_on_error rule p))
  \/ (forall p q, interpretResponse rev (with_on_error rule p) status json
                  = interpretResponse rev (with_on_error rule q) status json).
Proof.
  destruct rev; simpl;
    unfold V1.interpretResponse, V2.interpretResponse, V2.judge,
      ineligible, allowedStatuses_of, V2.saveFields_of;
    cbn [with_on_error validation save_fields error_message];
    repeat match goal with
    | |- context [if ?b then _ else _] =>
        lazymatch b with
        | context [with_on_error] => fail
        | _ => destruct b
        end
    | |- context [match ?x with Some _ => _ | None => _ end] =>
        lazymatch x with
        | context [with_on_error] => fail
        | _ => destruct x
        end
    end; auto.
Qed.

(** X17.  Switching a rule from ['block'] to ['allow'] leaves the
    network traffic as it is and never turns a pass into a failure; it
    changes the result only where ['block'] fails, and then into the
    advisory pass. *)
Theorem X17_allow_only_lifts_infrastructure_failures :
  forall (rev : Revision) (World : Type)
         (fetch : Request -> World -> FetchOutcome * World)
         (rule : EligibilityRule) (athlete : AthleteData) (w wb wa : World)
         (rb ra : ValidationResult),
    validateExternalApi rev fetch (with_on_error rule (js "block")) athlete w
    = (Return rb, wb) ->
    validateExternalApi rev fetch (with_on_error rule (js "allow")) athlete w
    = (Return ra, wa) ->
    wa = wb
    /\ (ra = rb
        \/ (ok rb = false
            /\ ra = {| ok := true; message := Some unavailable_message;
                       extractedData := None |})).
Proof.
  intros rev World fetch rule athlete w wb wa rb ra Hb Ha.
  assert (Eb : ok (on_error_result (with_on_error rule (js "block"))) = false)
    by reflexivity.
  assert (Ea : on_error_result (with_on_error rule (js "allow"))
               = {| ok := true; message := Some unavailable_message;
                    extractedData := None |}) by reflexivity.
  destruct (prepareRequest rev rule athlete) as [req|e] eqn:Hp.
  - destruct (fetch req w) as [o w1] eqn:Hf.
    rewrite (validateExternalApi_outcome rev fetch _ athlete w
               (eq_trans (prepareRequest_with_on_error rev rule (js "block")
                            athlete) Hp) Hf) in Hb.
    rewrite (validateExternalApi_outcome rev fetch _ athlete w
               (eq_trans (prepareRequest_with_on_error rev rule (js "allow")
                            athlete) Hp) Hf) in Ha.
    inversion Hb; inversion Ha; subst. split; [reflexivity|].
    destruct o as [name|status json].
    + right. now rewrite Ea.
    + destruct (interpretResponse_policy rev rule status json) as [H|H].
      * right. now rewrite !H, Ea.
      * left. apply H.
  - rewrite (validateExternalApi_handler rev fetch _ athlete w
               (eq_trans (prepareRequest_with_on_error rev rule (js "block")
                            athlete) Hp)) in Hb.
    rewrite (validateExternalApi_handler rev fetch _ athlete w
               (eq_trans (prepareRequest_with_on_error rev rule (js "allow")
                            athlete) Hp)) in Ha.
    inversion Hb; inversion Ha; subst. split; [reflexivity|].
    right. now rewrite Ea.
Qed.

(** X17 at a timeout. *)
Lemma X17_allow_witness :
  tt = tt
  /\ ({| ok := true; message := Some unavailable_message;
         extractedData := None |}
      = {| ok := false; message := Some not_eligible_message;
           extractedData := None |}
      \/ (false = false
          /\ {| ok := true; message := Some unavailable_message;
                extractedData := None |}
             = {| ok := true; message := Some unavailable_message;
                  extractedData := None |})).
Proof.
  exact (@X17_allow_only_lifts_infrastructure_failures Original unit
           (always (Rejected (js "AbortError")))
           (rule_with (by_status None) (js "block")) ana tt tt tt
           {| ok := false; message := Some not_eligible_message;
              extractedData := None |}
           {| ok := true; message := Some unavailable_message;
              extractedData := None |}
           eq_refl eq_refl).
Defined.

(** ** All rules, further *)

(** The empty-list test of [executeEligibilityCheck] returns what the
    loop would return on no rule. *)
Lemma executeEligibilityCheck_as_loop (rev : Revision) (World : Type)
  (fetch : Request -> World -> FetchOutcome * World)
  (athlete : AthleteData) (rules : list EligibilityRule) :
  executeEligibilityCheck rev fetch athlete rules
  = match rev with
    | Original => V1.checkRules fetch athlete (filter isActive rules) true []
    | Revised => V2.checkRules fetch athlete (filter isActive rules) true [] []
    end.
Proof.
  destruct rev; simpl;
    unfold V1.executeEligibilityCheck, V2.executeEligibilityCheck;
    now destruct (filter isActive rules).
Qed.

Lemma V1_checkRules_skip (World : Type)
  (fetch : Request -> World -> FetchOutcome * World)
  (athlete : AthleteData) (r : EligibilityRule)
  (before after : list EligibilityRule) :
  is_api_rest r = false ->
  forall (e : bool) (m : list jsstring) (w : World),
    V1.checkRules fetch athlete (before ++ r :: after) e m w
    = V1.checkRules fetch athlete (before ++ after) e m w.
Proof.
  intros Hr. unfold is_api_rest in Hr.
  induction before as [|x before IH]; intros e m w; simpl.
  - now rewrite Hr.
  - destruct (jsstring_eqb (type x) (js "api_rest")); [|apply IH].
    unfold bind. destruct (V1.validateExternalApi fetch x athlete w) as [[res|err] w1];
      [|reflexivity].
    destruct (negb (ok res)); apply IH.
Qed.

Lemma V2_checkRules_skip (World : Type)
  (fetch : Request -> World -> FetchOutcome * World)
  (athlete : AthleteData) (r : EligibilityRule)
  (before after : list EligibilityRule) :
  is_api_rest r = false ->
  forall (e : bool) (m : list jsstring) (x : JsObject) (w : World),
    V2.checkRules fetch athlete (before ++ r :: after) e m x w
    = V2.checkRules fetch athlete (before ++ after) e m x w.
Proof.
  intros Hr. unfold is_api_rest in Hr.
  induction before as [|y before IH]; intros e m x w; simpl.
  - now rewrite Hr.
  - destruct (jsstring_eqb (type y) (js "api_rest")); [|apply IH].
    unfold bind. destruct (V2.validateExternalApi fetch y athlete w) as [[res|err] w1];
      [|reflexivity].
    destruct (negb (ok res)); apply IH.
Qed.

(** X14.  A rule whose type is not ['api_rest'] is ignored, enabled or
    not: with it or without it, anywhere in the list, the check returns
    the same verdict and makes the same calls. *)
Theorem X14_other_rule_types_are_ignored :
  forall (rev : Revision) (World : Type)
         (fetch : Request -> World -> FetchOutcome * World)
         (athlete : AthleteData) (before after : list EligibilityRule)
         (r : EligibilityRule) (w : World),
    type r <> js "api_rest" ->
    executeEligibilityCheck rev fetch athlete (before ++ r :: after) w
    = executeEligibilityCheck rev fetch athlete (before ++ after) w.
Proof.
  intros rev World fetch athlete before after r w Ht.
  apply jsstring_eqb_neq in Ht.
  rewrite !executeEligibilityCheck_as_loop, !filter_app. simpl.
  destruct (isActive r); [|reflexivity].
  destruct rev; [now apply V1_checkRules_skip|now apply V2_checkRules_skip].
Qed.

(** X14 with a rule of a type to come between two failing rules. *)
Lemma X14_other_rule_types_witness :
  executeEligibilityCheck Revised scripted ana
    [rule_with (by_status None) (js "block");
     {| type := js "whitelist"; enabled := true; request := Some get_by_cpf;
        validation := by_status None; on_error := js "block";
        error_message := Some (js "never shown"); save_fields := None |};
     rule_with (by_status None) (js "block")]
    [Responded 404 None; Responded 403 None]
  = executeEligibilityCheck Revised scripted ana
      [rule_with (by_status None) (js "block");
       rule_with (by_status None) (js "block")]
      [Responded 404 None; Responded 403 None].
Proof.
  apply (@X14_other_rule_types_are_ignored Revised (list FetchOutcome)
           scripted ana [rule_with (by_status None) (js "block")]
           [rule_with (by_status None) (js "block")]).
  intros H. vm_compute in H. discriminate H.
Defined.

(** What a failing result adds to the messages. *)
Lemma pushed_message (rule : EligibilityRule) (result : ValidationResult)
  (m : jsstring) :
  well_shaped rule result -> ok result = false ->
  message result = Some m ->
  m = unexpected_message \/ error_message rule = Some m.
Proof.
  intros [[Hok _]|[[Hok _]|[_ [_ [Hm|Hm]]]]] Hf Hs; try congruence.
  - right. congruence.
  - left. congruence.
Qed.

Lemma V1_checkRules_messages (World : Type)
  (fetch : Request -> World -> FetchOutcome * World)
  (athlete : AthleteData) (all : list EligibilityRule)
  (rules : list EligibilityRule) :
  (forall r, In r rules -> In r all /\ isActive r = true) ->
  forall (e : bool) (m : list jsstring) (w w' : World)
         (verdict : EligibilityResult),
    (e = true -> m = []) ->
    Forall (message_of_rules all) m ->
    V1.checkRules fetch athlete rules e m w = (Return verdict, w') ->
    (eligible verdict = true -> messages verdict = [])
    /\ Forall (message_of_rules all) (messages verdict).
Proof.
  induction rules as [|rule rest IH]; intros Hsub e m w w' verdict He Hm Hrun.
  - simpl in Hrun. inversion Hrun; subst. simpl. auto.
  - assert (Hrest : forall r, In r rest -> In r all /\ isActive r = true)
      by (intros r Hr; apply Hsub; now right).
    simpl in Hrun.
    destruct (jsstring_eqb (type rule) (js "api_rest")) eqn:Et;
      [|now apply (IH Hrest e m w w' verdict)].
    unfold bind in Hrun.
    destruct (V1.validateExternalApi fetch rule athlete w) as [[res|err] w1]
      eqn:Hres; [|discriminate].
    pose proof (validateExternalApi_shape Original fetch rule athlete w Hres)
      as Hshape.
    destruct (ok res) eqn:Hok; simpl in Hrun.
    + exact (IH Hrest _ _ _ _ _ He Hm Hrun).
    + refine (IH Hrest _ _ _ _ _ _ _ Hrun); [discriminate|].
      destruct (message res) as [msg|] eqn:Hmsg; [|exact Hm].
      destruct (truthy_string msg); [|exact Hm].
      apply Forall_app. split; [exact Hm|]. constructor; [|constructor].
      destruct (pushed_message Hshape Hok Hmsg) as [->|Hr]; [now left|].
      right. exists rule. destruct (Hsub rule ltac:(now left)). auto.
Qed.

Lemma V2_checkRules_messages (World : Type)
  (fetch : Request -> World -> FetchOutcome * World)
  (athlete : AthleteData) (all : list EligibilityRule)
  (rules : list EligibilityRule) :
  (forall r, In r rules -> In r all /\ isActive r = true) ->
  forall (e : bool) (m : list jsstring) (x : JsObject) (w w' : World)
         (verdict : EligibilityResult),
    (e = true -> m = []) ->
    Forall (message_of_rules all) m ->
    V2.checkRules fetch athlete rules e m x w = (Return verdict, w') ->
    (eligible verdict = true -> messages verdict = [])
    /\ Forall (message_of_rules all) (messages verdict).
Proof.
  induction rules as [|rule rest IH];
    intros Hsub e m x w w' verdict He Hm Hrun.
  - simpl in Hrun. inversion Hrun; subst. simpl. auto.
  - assert (Hrest : forall r, In r rest -> In r all /\ isActive r = true)
      by (intros r Hr; apply Hsub; now right).
    simpl in Hrun.
    destruct (jsstring_eqb (type rule) (js "api_rest")) eqn:Et;
      [|now apply (IH Hrest e m x w w' verdict)].
    unfold bind in Hrun.
    destruct (V2.validateExternalApi fetch rule athlete w) as [[res|err] w1]
      eqn:Hres; [|discriminate].
    pose proof (validateExternalApi_shape Revised fetch rule athlete w Hres)
      as Hshape.
    destruct (ok res) eqn:Hok; simpl in Hrun.
    + exact (IH Hrest _ _ _ _ _ _ He Hm Hrun).
    + refine (IH Hrest _ _ _ _ _ _ _ _ Hrun); [discriminate|].
      destruct (message res) as [msg|] eqn:Hmsg; [|exact Hm].
      destruct (truthy_string msg); [|exact Hm].
      apply Forall_app. split; [exact Hm|]. constructor; [|constructor].
      destruct (pushed_message Hshape Hok Hmsg) as [->|Hr]; [now left|].
      right. exists rule. destruct (Hsub rule ltac:(now left)). auto.
Qed.

Lemma checked_messages (rev : Revision) (World : Type)
  (fetch : Request -> World -> FetchOutcome * World)
  (athlete : AthleteData) (rules : list EligibilityRule) (w w' : World)
  (verdict : EligibilityResult) :
  executeEligibilityCheck rev fetch athlete rules w = (Return verdict, w') ->
  (eligible verdict = true -> messages verdict = [])
  /\ Forall (message_of_rules rules) (messages verdict).
Proof.
  rewrite executeEligibilityCheck_as_loop. intros Hrun.
  assert (Hsub : forall r, In r (filter isActive rules) ->
                           In r rules /\ isActive r = true)
    by (intros r Hr; now apply filter_In in Hr).
  destruct rev.
  - exact (@V1_checkRules_messages World fetch athlete rules
             (filter isActive rules) Hsub true [] w w' verdict
             (fun _ => eq_refl) (Forall_nil _) Hrun).
  - exact (@V2_checkRules_messages World fetch athlete rules
             (filter isActive rules) Hsub true [] [] w w' verdict
             (fun _ => eq_refl) (Forall_nil _) Hrun).
Qed.

(** X15.  An eligible verdict carries no message: the advisory text of
    a rule let through by [on_error = 'allow'] is never reported. *)
Theorem X15_eligible_verdict_has_no_messages :
  forall (rev : Revision) (World : Type)
         (fetch : Request -> World -> FetchOutcome * World)
         (athlete : AthleteData) (rules : list EligibilityRule) (w w' : World)
         (verdict : EligibilityResult),
    executeEligibilityCheck rev fetch athlete rules w = (Return verdict, w') ->
    eligible verdict = true ->
    messages verdict = [].
Proof.
  intros rev World fetch athlete rules w w' verdict Hrun.
  exact (proj1 (checked_messages rev fetch athlete rules w Hrun)).
Qed.

(** X15 at a timeout under [allow] followed by a pass. *)
Lemma X15_eligible_verdict_witness :
  messages {| eligible := true; messages := [];
              result_extractedData := None |} = [].
Proof.
  exact (@X15_eligible_verdict_has_no_messages Revised (list FetchOutcome)
           scripted ana
           [rule_with (by_status None) (js "allow");
            rule_with (by_status None) (js "block")]
           [Rejected (js "AbortError"); Responded 200 None] []
           {| eligible := true; messages := [];
              result_extractedData := None |}
           eq_refl eq_refl).
Defined.

(** X16.  Every message of a verdict is the [error_message] of a rule
    of the list that is active and of type ['api_rest'], or the generic
    message; nothing else is ever reported. *)
Theorem X16_messages_come_from_the_rules :
  forall (rev : Revision) (World : Type)
         (fetch : Request -> World -> FetchOutcome * World)
         (athlete : AthleteData) (rules : list EligibilityRule) (w w' : World)
         (verdict : EligibilityResult) (m : jsstring),
    executeEligibilityCheck rev fetch athlete rules w = (Return verdict, w') ->
    In m (messages verdict) ->
    m = unexpected_message
    \/ exists r, In r rules /\ enabled r = true /\ type r = js "api_rest"
                 /\ error_message r = Some m.
Proof.
  intros rev World fetch athlete rules w w' verdict m Hrun Hin.
  pose proof (proj2 (checked_messages rev fetch athlete rules w Hrun)) as H.
  rewrite Forall_forall in H.
  destruct (H m Hin) as [->|[r [Hr [Ha [Ht Hm]]]]]; [now left|].
  right. exists r. repeat split; try assumption.
  - unfold isActive in Ha. now apply andb_true_iff in Ha as [Ha _].
  - now apply jsstring_eqb_eq in Ht.
Qed.

(** X16 at a check whose second rule fails on a 403. *)
Lemma X16_messages_witness :
  js "second" = unexpected_message
  \/ exists r,
       In r [rule_saving (by_status None) (js "first") [];
             rule_saving (by_status None) (js "second") []]
       /\ enabled r = true /\ type r = js "api_rest"
       /\ error_message r = Some (js "second").
Proof.
  apply (@X16_messages_come_from_the_rules Revised (list FetchOutcome)
           scripted ana
           [rule_saving (by_status None) (js "first") [];
            rule_saving (by_status None) (js "second") []]
           [Responded 200 None; Responded 403 None] []
           {| eligible := false; messages := [js "second"];
              result_extractedData := None |}
           (js "second")).
  - reflexivity.
  - simpl. auto.
Defined.

(** ** The calls a check makes *)

Lemma counted_validateExternalApi (rev : Revision) (World : Type)
  (fetch : Request -> World -> FetchOutcome * World)
  (rule : EligibilityRule) (athlete : AthleteData) (w : World) (n : nat) :
  exists result w',
    validateExternalApi rev (counted fetch) rule athlete (w, n)
    = (Return result,
       (w', if request_builds rev rule athlete then S n else n)).
Proof.
  unfold request_builds.
  destruct (prepareRequest rev rule athlete) as [req|e] eqn:Hp.
  - destruct (fetch req w) as [o w'] eqn:Hf.
    assert (Hc : counted fetch req (w, n) = (o, (w', S n)))
      by (unfold counted; now rewrite Hf).
    eexists. exists w'.
    exact (validateExternalApi_outcome rev (counted fetch) rule athlete
             (w, n) Hp Hc).
  - eexists. exists w.
    exact (validateExternalApi_handler rev (counted fetch) rule athlete
             (w, n) Hp).
Qed.

Lemma V1_checkRules_calls (World : Type)
  (fetch : Request -> World -> FetchOutcome * World)
  (athlete : AthleteData) (rules : list EligibilityRule) :
  forall (e : bool) (m : list jsstring) (w : World) (n : nat),
    snd (snd (V1.checkRules (counted fetch) athlete rules e m (w, n)))
    = (n + List.length
             (filter (fun r => is_api_rest r
                               && request_builds Original r athlete) rules))%nat.
Proof.
  induction rules as [|rule rest IH]; intros e m w n; simpl.
  - lia.
  - unfold is_api_rest at 1.
    destruct (jsstring_eqb (type rule) (js "api_rest")); simpl; [|apply IH].
    unfold bind.
    destruct (counted_validateExternalApi Original fetch rule athlete w n)
      as [res [w1 Hres]].
    simpl in Hres. rewrite Hres.
    destruct (request_builds Original rule athlete);
      destruct (negb (ok res)); rewrite IH; simpl; lia.
Qed.

Lemma V2_checkRules_calls (World : Type)
  (fetch : Request -> World -> FetchOutcome * World)
  (athlete : AthleteData) (rules : list EligibilityRule) :
  forall (e : bool) (m : list jsstring) (x : JsObject) (w : World) (n : nat),
    snd (snd (V2.checkRules (counted fetch) athlete rules e m x (w, n)))
    = (n + List.length
             (filter (fun r => is_api_rest r
                               && request_builds Revised r athlete) rules))%nat.
Proof.
  induction rules as [|rule rest IH]; intros e m x w n; simpl.
  - lia.
  - unfold is_api_rest at 1.
    destruct (jsstring_eqb (type rule) (js "api_rest")); simpl; [|apply IH].
    unfold bind.
    destruct (counted_validateExternalApi Revised fetch rule athlete w n)
      as [res [w1 Hres]].
    simpl in Hres. rewrite Hres.
    destruct (request_builds Revised rule athlete);
      destruct (negb (ok res)); rewrite IH; simpl; lia.
Qed.

Lemma filter_filter_length {A} (f g : A -> bool) (l : list A) :
  List.length (filter g (filter f l))
  = List.length (filter (fun x => f x && g x) l).
Proof.
  induction l as [|x l IH]; simpl; [reflexivity|].
  destruct (f x); simpl; [|exact IH].
  destruct (g x); simpl; now rewrite IH.
Qed.

(** X18.  A check calls the network once for every rule that is
    active, of type ['api_rest'] and whose request can be built, and not
    once more: a failing rule does not stop the rules after it, and a
    rule that is skipped costs no call. *)
Theorem X18_one_call_per_evaluated_rule :
  forall (rev : Revision) (World : Type)
         (fetch : Request -> World -> FetchOutcome * World)
         (athlete : AthleteData) (rules : list EligibilityRule)
         (w : World) (n : nat),
    snd (snd (executeEligibilityCheck rev (counted fetch) athlete rules (w, n)))
    = (n + List.length
             (filter (fun r => isActive r
                               && (is_api_rest r
                                   && request_builds rev r athlete))
                     rules))%nat.
Proof.
  intros rev World fetch athlete rules w n.
  rewrite executeEligibilityCheck_as_loop, <- filter_filter_length.
  destruct rev; [apply V1_checkRules_calls|apply V2_checkRules_calls].
Qed.

Example three_rules_two_calls :
  snd (executeEligibilityCheck Revised (counted scripted) ana
         [rule_with (by_status None) (js "block");
          disabled (rule_with (by_status None) (js "block"));
          rule_with (by_status None) (js "block")]
         ([Responded 404 None; Responded 200 None; Responded 200 None], 0%nat))
  = ([Responded 200 None], 2%nat).
Proof. reflexivity. Qed.

(** ** The headers of a request *)

Lemma own_property_cons {A} (k0 k : jsstring) (v0 : A)
  (b : list (jsstring * A)) :
  own_property ((k0, v0) :: b) k
  = if jsstring_eqb k0 k then Some v0 else own_property b k.
Proof. unfold own_property. simpl. now destruct (jsstring_eqb k0 k). Qed.

Lemma own_property_spread {A} (b : list (jsstring * A)) :
  NoDup (map fst b) ->
  forall (a : list (jsstring * A)) (k : jsstring),
    own_property (spread a b) k
    = match own_property b k with
      | Some v => Some v
      | None => own_property a k
      end.
Proof.
  unfold spread.
  induction b as [|[k0 v0] b IH]; intros Hnd a k; [reflexivity|].
  inversion Hnd as [|? ? Hn Hd]; subst.
  cbn [fold_left fst snd]. rewrite (IH Hd), own_property_cons.
  destruct (jsstring_eqb k0 k) eqn:E.
  - apply jsstring_eqb_eq in E. subst k0.
    apply own_property_None in Hn. rewrite Hn.
    apply own_property_record_set_same.
  - destruct (own_property b k); [reflexivity|].
    apply own_property_record_set_other.
    intros ->. now rewrite jsstring_eqb_refl in E.
Qed.

(** X19.  The headers sent are the configured ones, each with its
    configured value, plus [Accept: application/json] unless the rule
    configures an [Accept] of its own (for the revised engine: when no
    authentication is configured and the method is not POST). *)
Theorem X19_request_headers :
  forall (rev : Revision) (rule : EligibilityRule) (athlete : AthleteData)
         (rq : EligibilityRuleRequest) (req : Request) (name : jsstring),
    request rule = Some rq ->
    prepareRequest rev rule athlete = Return req ->
    rev = Original
    \/ (auth rq = None /\ string_or (method rq) (js "GET") <> js "POST") ->
    NoDup (map fst match headers rq with Some h => h | None => [] end) ->
    own_property (req_headers req) name
    = match own_property match headers rq with Some h => h | None => [] end
                         name with
      | Some v => Some v
      | None => if jsstring_eqb name (js "Accept")
                then Some (js "application/json") else None
      end.
Proof.
  intros rev rule athlete rq req name Hrq Hp Hcase Hnd.
  assert (Hbase : own_property
                    (spread [(js "Accept", js "application/json")]
                       match headers rq with Some h => h | None => [] end)
                    name
                  = match own_property
                            match headers rq with Some h => h | None => [] end
                            name with
                    | Some v => Some v
                    | None => if jsstring_eqb name (js "Accept")
                              then Some (js "application/json") else None
                    end).
  { rewrite (@own_property_spread _ _ Hnd). destruct (own_property _ name);
      [reflexivity|].
    unfold own_property. simpl.
    destruct (jsstring_eqb name (js "Accept")) eqn:E.
    - apply jsstring_eqb_eq in E. subst name. reflexivity.
    - destruct (jsstring_eqb (js "Accept") name) eqn:E'; [|reflexivity].
      apply jsstring_eqb_eq in E'. subst name. discriminate E. }
  destruct rev; simpl in Hp.
  - unfold V1.prepareRequest in Hp. rewrite Hrq in Hp.
    destruct (sanitizeUrl _ _) as [u|]; [|discriminate].
    simpl in Hp. inversion Hp; subst req. exact Hbase.
  - destruct Hcase as [Hc|[Ha Hm]]; [discriminate|].
    unfold V2.prepareRequest in Hp. rewrite Hrq, Ha in Hp.
    destruct (sanitizeUrl _ _) as [u|]; [|discriminate].
    apply jsstring_eqb_neq in Hm.
    cbn [exc_bind V2.applyAuth] in Hp. rewrite Hm in Hp.
    inversion Hp; subst req. exact Hbase.
Qed.

(** X19 with a configured [Accept] and one more header. *)
Lemma X19_request_headers_witness :
  own_property
    [(js "Accept", js "text/plain"); (js "X-Env", js "hml")] (js "Accept")
  = Some (js "text/plain").
Proof.
  refine (@X19_request_headers Revised
            {| type := js "api_rest"; enabled := true;
               request := Some {| url := js "https://x/{cpf}"; method := None;
                                  params := [js "cpf"];
                                  headers := Some [(js "Accept", js "text/plain");
                                                   (js "X-Env", js "hml")];
                                  timeout_ms := None; auth := None |};
               validation := by_status None; on_error := js "block";
               error_message := None; save_fields := None |}
            ana
            {| url := js "https://x/{cpf}"; method := None;
               params := [js "cpf"];
               headers := Some [(js "Accept", js "text/plain");
                                (js "X-Env", js "hml")];
               timeout_ms := None; auth := None |}
            {| req_url := js "https://x/12345678900"; req_method := js "GET";
               req_headers := [(js "Accept", js "text/plain");
                               (js "X-Env", js "hml")];
               req_body := None; req_timeout_ms := 3000 |}
            (js "Accept") eq_refl eq_refl _ _).
  - right. split; [reflexivity|]. intros H. vm_compute in H. discriminate H.
  - constructor.
    + simpl. intros [H|[]]. vm_compute in H. discriminate H.
    + constructor; [intros []|constructor].
Defined.

(** ** The mock endpoint *)

Lemma lookup_athlete_cases (athletes : list MockApi.MockAthlete)
  (cleanCpf : jsstring) :
  (exists a, find (fun a => jsstring_eqb (MockApi.cpf a) cleanCpf) athletes
             = Some a
             /\ In a athletes /\ MockApi.cpf a = cleanCpf
             /\ MockApi.lookup_athlete athletes cleanCpf
                = {| MockApi.status := 200;
                     MockApi.body := MockApi.athlete_json a |})
  \/ ((forall a, In a athletes -> MockApi.cpf a <> cleanCpf)
      /\ find (fun a => jsstring_eqb (MockApi.cpf a) cleanCpf) athletes = None
      /\ MockApi.lookup_athlete athletes cleanCpf
         = {| MockApi.status := 404; MockApi.body := MockApi.cpf_not_found |}).
Proof.
  unfold MockApi.lookup_athlete.
  destruct (find _ athletes) as [a|] eqn:E.
  - left. exists a. apply find_some in E as [Hin Heq].
    apply jsstring_eqb_eq in Heq. auto.
  - right. split; [|auto]. intros a Hin Heq.
    pose proof (find_none _ _ E a Hin) as Hf. simpl in Hf.
    rewrite Heq, jsstring_eqb_refl in Hf. discriminate Hf.
Qed.

(** X20.  [GET /pacientes/:cpf].  Without a valid key the answer is
    401, whether the CPF is on file or not.  With a valid key the
    answer is 200 exactly when some athlete on file has the CPF of the
    path once its dots and hyphens are removed, and the body then
    carries that CPF; otherwise it is 404. *)
Theorem X20_mock_get_pacientes :
  forall (athletes : list MockApi.MockAthlete) (req : MockApi.MockRequest),
    let clean :=
      filter (fun c => negb (N.eqb c 46 || N.eqb c 45)) (MockApi.param_cpf req) in
    let answer := MockApi.get_pacientes athletes req in
    (MockApi.validateApiKey req = false ->
     answer = {| MockApi.status := 401; MockApi.body := MockApi.invalid_key |})
    /\ (MockApi.validateApiKey req = true ->
        (MockApi.status answer = 200%Z
         <-> exists a, In a athletes /\ MockApi.cpf a = clean)
        /\ (MockApi.status answer = 200%Z ->
            getNestedValue (MockApi.body answer) (js "cpf") = JStr clean)
        /\ (MockApi.status answer <> 200%Z ->
            answer = {| MockApi.status := 404;
                        MockApi.body := MockApi.cpf_not_found |})).
Proof.
  intros athletes req clean answer. subst answer.
  assert (E : remove_all is_dot_or_hyphen (MockApi.param_cpf req) = clean)
    by (now rewrite remove_all_filter).
  unfold MockApi.get_pacientes. split; intros Hk; rewrite Hk; [reflexivity|].
  cbn [negb]. rewrite E. clearbody clean.
  destruct (lookup_athlete_cases athletes clean)
    as [[a [_ [Hin [Hc Hr]]]]|[Hnone [_ Hr]]]; rewrite Hr; simpl.
  - split; [|split].
    + split; [eauto|reflexivity].
    + intros _. rewrite <- Hc. reflexivity.
    + intros H. now contradiction H.
  - split; [|split].
    + split; [discriminate|]. intros [a [Hin Hc]]. now destruct (Hnone a Hin).
    + discriminate.
    + reflexivity.
Qed.

(** X20 with the key in the header and a punctuated CPF. *)
Lemma X20_mock_get_pacientes_witness :
  MockApi.status (MockApi.get_pacientes mock_athletes (with_key (js "529.982.247-25")))
  = 200%Z
  /\ getNestedValue
       (MockApi.body (MockApi.get_pacientes mock_athletes
                        (with_key (js "529.982.247-25"))))
       (js "cpf")
     = JStr (js "52998224725").
Proof.
  pose proof (proj2 (X20_mock_get_pacientes mock_athletes
                       (with_key (js "529.982.247-25"))) eq_refl)
    as [Hiff [Hbody _]].
  assert (H200 : MockApi.status
                   (MockApi.get_pacientes mock_athletes
                      (with_key (js "529.982.247-25"))) = 200%Z).
  { apply Hiff. eexists. split; [right; left; reflexivity|reflexivity]. }
  split; [exact H200|exact (Hbody H200)].
Defined.



(** X22.  The engine on the answers of the mock endpoint.  A rule in
    [json_compare] mode that expects [apto === true] passes exactly when
    the key is valid and the athlete found for the CPF is marked [apto];
    a rule in [http_status] mode with the default allow-list passes
    exactly when the key is valid and the CPF is on file. *)
Theorem X22_engine_on_mock_answers :
  forall (rev : Revision) (rule : EligibilityRule)
         (athletes : list MockApi.MockAthlete) (req : MockApi.MockRequest),
    let answer := MockApi.get_pacientes athletes req in
    let found :=
      find (fun a => jsstring_eqb (MockApi.cpf a)
                       (remove_all is_dot_or_hyphen (MockApi.param_cpf req)))
           athletes in
    let result :=
      interpretResponse rev rule (MockApi.status answer)
        (Some (MockApi.body answer)) in
    (validation rule = by_json (js "apto") (JBool true) ->
     (ok result = true
      <-> MockApi.validateApiKey req = true
          /\ exists a, found = Some a /\ MockApi.apto a = true))
    /\ (validation rule = by_status None ->
        (ok result = true
         <-> MockApi.validateApiKey req = true /\ found <> None)).
Proof.
  intros rev rule athletes req answer found result.
  subst answer found result. unfold MockApi.get_pacientes.
  destruct (MockApi.validateApiKey req) eqn:Hk; cbn [negb].
  - destruct (lookup_athlete_cases athletes
                (remove_all is_dot_or_hyphen (MockApi.param_cpf req)))
      as [[a [Hf [_ [_ Hr]]]]|[_ [Hf Hr]]]; rewrite Hr, Hf;
      cbn [MockApi.status MockApi.body]; split; intros Hv.
    + replace (ok (interpretResponse rev rule 200
                     (Some (MockApi.athlete_json a))))
        with (MockApi.apto a).
      * split.
        -- intros Ha. split; [reflexivity|]. now exists a.
        -- intros [_ [a' [E Ha]]]. now inversion E; subst.
      * destruct rev; simpl;
          unfold V1.interpretResponse, V2.interpretResponse, V2.judge;
          rewrite Hv; simpl; now destruct (MockApi.apto a).
    + replace (ok (interpretResponse rev rule 200
                     (Some (MockApi.athlete_json a)))) with true.
      * split; [|reflexivity]. intros _. split; [reflexivity|discriminate].
      * destruct rev; simpl;
          unfold V1.interpretResponse, V2.interpretResponse, V2.judge,
            allowedStatuses_of;
          rewrite Hv; simpl; [reflexivity|].
        now destruct (Nat.ltb 0 _).
    + rewrite interpretResponse_404. simpl.
      split; [discriminate|]. intros [_ [a [E _]]]. discriminate E.
    + rewrite interpretResponse_404. simpl.
      split; [discriminate|]. intros [_ E]. now contradiction E.
  - cbn [MockApi.status MockApi.body]. split; intros Hv.
    + replace (ok (interpretResponse rev rule 401 (Some MockApi.invalid_key)))
        with false.
      * split; [discriminate|]. intros [E _]. discriminate E.
      * destruct rev; simpl;
          unfold V1.interpretResponse, V2.interpretResponse, V2.judge;
          rewrite Hv; reflexivity.
    + replace (ok (interpretResponse rev rule 401 (Some MockApi.invalid_key)))
        with false.
      * split; [discriminate|]. intros [E _]. discriminate E.
      * destruct rev; simpl;
          unfold V1.interpretResponse, V2.interpretResponse, V2.judge,
            allowedStatuses_of;
          rewrite Hv; simpl; [reflexivity|].
        now destruct (Nat.ltb 0 _).
Qed.

(** X22 for Rui, who is on file and not [apto]. *)
Lemma X22_engine_on_mock_witness :
  (ok (interpretResponse Revised
         (rule_with (by_json (js "apto") (JBool true)) (js "block"))
         (MockApi.status (MockApi.get_pacientes mock_athletes
                            (with_key (js "529.982.247-25"))))
         (Some (MockApi.body (MockApi.get_pacientes mock_athletes
                                (with_key (js "529.982.247-25"))))))
   = true
   <-> MockApi.validateApiKey (with_key (js "529.982.247-25")) = true
       /\ exists a,
            find (fun a => jsstring_eqb (MockApi.cpf a)
                             (remove_all is_dot_or_hyphen
                                (MockApi.param_cpf
                                   (with_key (js "529.982.247-25")))))
                 mock_athletes = Some a
            /\ MockApi.apto a = true).
Proof.
  apply (proj1 (X22_engine_on_mock_answers Revised
                  (rule_with (by_json (js "apto") (JBool true)) (js "block"))
                  mock_athletes (with_key (js "529.982.247-25")))).
  reflexivity.
Defined.

(** ** [formatCPF] *)

Lemma list_of_eleven {A} (l : list A) :
  List.length l = 11%nat ->
  exists a b c d e f g h i j k, l = [a; b; c; d; e; f; g; h; i; j; k].
Proof.
  intros H.
  do 11 (destruct l as [|? l]; [discriminate H|]).
  destruct l; [|discriminate H].
  repeat eexists.
Qed.

Lemma filter_is_digit_all (s : jsstring) :
  forallb is_digit (filter is_digit s) = true.
Proof.
  apply forallb_forall. intros c Hc. now apply filter_In in Hc.
Qed.

(** On eleven digits the regular expression of the page and the slices
    of the receipt build the same text. *)
Lemma replace_cpf_pattern_eleven (d : jsstring) :
  List.length d = 11%nat -> forallb is_digit d = true ->
  InscritosPage.replace_cpf_pattern d = cpf_groups d.
Proof.
  intros Hl Hd.
  destruct (list_of_eleven d Hl) as [a [b [c [e [f [g [h [i [j [k [l ->]]]]]]]]]]].
  unfold InscritosPage.replace_cpf_pattern.
  cbn [firstn List.length Nat.eqb andb]. rewrite Hd. reflexivity.
Qed.


Lemma formatCPF_agree (c : code_unit) (k : jsstring) :
  InscritosPage.formatCPF (Some (c :: k))
  = ReceiptRoute.formatCPF (Some (c :: k)).
Proof.
  unfold InscritosPage.formatCPF, ReceiptRoute.formatCPF.
  cbn [truthy_string negb]. rewrite digits_of.
  destruct (Nat.eqb (List.length (filter is_digit (c :: k))) 11) eqn:E;
    [|reflexivity].
  apply Nat.eqb_eq in E. cbn [negb].
  apply replace_cpf_pattern_eleven; [exact E|apply filter_is_digit_all].
Qed.




(** X23.  The receipt and the registrations page format every
    non-empty CPF alike (they differ on a missing or empty one only:
    ["N/A"] against ["-"]). *)
Theorem X23_formatCPF_same_in_receipt_and_page :
  forall (c : code_unit) (k : jsstring),
    InscritosPage.formatCPF (Some (c :: k))
    = ReceiptRoute.formatCPF (Some (c :: k)).
Proof. exact formatCPF_agree. Qed.



Example formatCPF_examples :
  InscritosPage.formatCPF (Some (js "529 982 247 25")) = js "529.982.247-25"
  /\ ReceiptRoute.formatCPF (Some (js "52998224725")) = js "529.982.247-25"
  /\ InscritosPage.formatCPF (Some (js "1234")) = js "1234"
  /\ InscritosPage.formatCPF None = js "-"
  /\ ReceiptRoute.formatCPF (Some []) = js "N/A".
Proof. repeat split. Qed.

(** ** The eligibility columns of the export *)

Lemma add_keys_spec (ks : list jsstring) :
  forall acc : list jsstring,
    NoDup acc ->
    let out := fold_left
                 (fun keys key =>
                    if existsb (jsstring_eqb key) keys then keys
                    else keys ++ [key]) ks acc in
    NoDup out /\ forall key, In key out <-> In key acc \/ In key ks.
Proof.
  induction ks as [|x ks IH]; intros acc Hnd; simpl.
  - split; [exact Hnd|]. intuition.
  - destruct (existsb (jsstring_eqb x) acc) eqn:E.
    + destruct (IH acc Hnd) as [H1 H2]. split; [exact H1|].
      intros key. rewrite H2. apply existsb_jsstring_In in E.
      intuition; subst; auto.
    + assert (Hx : ~ In x acc).
      { intros Hin. apply existsb_jsstring_In in Hin. congruence. }
      assert (Hnd' : NoDup (acc ++ [x])).
      { apply NoDup_app; [exact Hnd|repeat constructor; intros []|].
        intros a Ha [<-|[]]. contradiction. }
      destruct (IH (acc ++ [x]) Hnd') as [H1 H2]. split; [exact H1|].
      intros key. rewrite H2, in_app_iff. simpl. intuition.
Qed.

Lemma eligibilityKeys_spec (data : list InscritosPage.EnrichedRegistration) :
  forall acc : list jsstring,
    NoDup acc ->
    let out :=
      fold_left
        (fun eligibilityKeys reg =>
           match InscritosPage.dadosElegibilidade reg with
           | Some dados =>
               fold_left
                 (fun keys key =>
                    if existsb (jsstring_eqb key) keys then keys
                    else keys ++ [key])
                 (map fst dados) eligibilityKeys
           | None => eligibilityKeys
           end) data acc in
    NoDup out
    /\ forall key,
         In key out
         <-> In key acc
             \/ exists reg dados,
                  In reg data
                  /\ InscritosPage.dadosElegibilidade reg = Some dados
                  /\ In key (map fst dados).
Proof.
  induction data as [|reg data IH]; intros acc Hnd; simpl.
  - split; [exact Hnd|]. intros key. split; [auto|].
    intros [H|[r [d [[] _]]]]. exact H.
  - destruct (InscritosPage.dadosElegibilidade reg) as [dados|] eqn:Ed.
    + destruct (@add_keys_spec (map fst dados) acc Hnd) as [Hn1 Hk1].
      destruct (IH _ Hn1) as [Hn2 Hk2]. split; [exact Hn2|].
      intros key. rewrite Hk2, Hk1. split.
      * intros [[H|H]|[r [d [Hr [Hd Hin]]]]]; [auto| |].
        -- right. exists reg, dados. auto.
        -- right. exists r, d. auto.
      * intros [H|[r [d [[<-|Hr] [Hd Hin]]]]]; [auto| |].
        -- left. right. congruence.
        -- right. exists r, d. auto.
    + destruct (IH acc Hnd) as [Hn2 Hk2]. split; [exact Hn2|].
      intros key. rewrite Hk2. split.
      * intros [H|[r [d [Hr [Hd Hin]]]]]; [auto|].
        right. exists r, d. auto.
      * intros [H|[r [d [[<-|Hr] [Hd Hin]]]]]; [auto|congruence|].
        right. exists r, d. auto.
Qed.

(** X25.  The export has one eligibility column for every key that
    some exported registration stored, and for no other; no column
    twice; and every row has exactly one cell per column. *)
Theorem X25_export_eligibility_columns :
  forall (String_of : JsValue -> jsstring)
         (registrations : list InscritosPage.EnrichedRegistration)
         (filter_name : jsstring),
    let dataToExport :=
      InscritosPage.dataToExport_of registrations filter_name in
    let eligibilityKeys := InscritosPage.eligibilityKeys_of dataToExport in
    NoDup eligibilityKeys
    /\ (forall key,
          In key eligibilityKeys
          <-> exists reg dados,
                In reg dataToExport
                /\ InscritosPage.dadosElegibilidade reg = Some dados
                /\ In key (map fst dados))
    /\ (forall reg,
          List.length
            (InscritosPage.eligibilityValues_of String_of eligibilityKeys reg)
          = List.length eligibilityKeys).
Proof.
  intros String_of registrations filter_name dataToExport eligibilityKeys.
  destruct (@eligibilityKeys_spec dataToExport [] (NoDup_nil _)) as [Hn Hk].
  split; [exact Hn|]. split.
  - intros key. subst eligibilityKeys.
    unfold InscritosPage.eligibilityKeys_of. rewrite Hk.
    split; [intros [[]|H]; exact H|auto].
  - intros reg. unfold InscritosPage.eligibilityValues_of.
    apply length_map.
Qed.

Example export_columns :
  InscritosPage.eligibilityKeys_of
    (InscritosPage.dataToExport_of
       [ {| InscritosPage.status := js "confirmada";
            InscritosPage.dadosElegibilidade :=
              Some [(js "categoria", JStr (js "A")); (js "apto", JBool true)] |};
         {| InscritosPage.status := js "pendente";
            InscritosPage.dadosElegibilidade :=
              Some [(js "matricula", JNum 7)] |};
         {| InscritosPage.status := js "confirmada";
            InscritosPage.dadosElegibilidade := None |};
         {| InscritosPage.status := js "confirmada";
            InscritosPage.dadosElegibilidade :=
              Some [(js "apto", JBool false); (js "setor", JNull)] |} ]
       (js "confirmadas"))
  = [js "categoria"; js "apto"; js "setor"].
Proof. reflexivity. Qed.

(** ** Merging what the rules extract *)

Lemma extractFields_NoDup (data : JsValue) (fields : list jsstring) :
  NoDup (map fst (V2.extractFields data fields)).
Proof.
  unfold V2.extractFields.
  assert (H : forall acc : JsObject, NoDup (map fst acc) ->
    NoDup (map fst (fold_left
      (fun extracted field =>
         match getNestedValue data field with
         | JUndefined => extracted
         | v => record_set field v extracted
         end) fields acc))).
  { induction fields as [|f l IH]; intros acc Hacc; simpl; [exact Hacc|].
    apply IH. destruct (getNestedValue data f);
      try exact Hacc; now apply record_set_NoDup. }
  apply H. constructor.
Qed.

Lemma interpretResponse_extracted (rev : Revision) (rule : EligibilityRule)
  (status : Z) (json : option JsValue) (e : JsObject) :
  extractedData (interpretResponse rev rule status json) = Some e ->
  NoDup (map fst e).
Proof.
  destruct rev; simpl;
    unfold V1.interpretResponse, V2.interpretResponse, V2.judge,
      on_error_result, ineligible;
    repeat match goal with
    | |- context [if ?b then _ else _] => destruct b
    | |- context [match ?x with Some _ => _ | None => _ end] => destruct x
    end; simpl; intros H; try discriminate H;
    inversion H; subst; apply extractFields_NoDup.
Qed.

Lemma validateExternalApi_extracted (rev : Revision) (World : Type)
  (fetch : Request -> World -> FetchOutcome * World)
  (rule : EligibilityRule) (athlete : AthleteData) (w w' : World)
  (result : ValidationResult) (e : JsObject) :
  validateExternalApi rev fetch rule athlete w = (Return result, w') ->
  extractedData result = Some e ->
  NoDup (map fst e).
Proof.
  intros Hrun He.
  destruct (prepareRequest rev rule athlete) as [req|err] eqn:Hp.
  - destruct (fetch req w) as [o w1] eqn:Hf.
    rewrite (validateExternalApi_outcome rev fetch rule athlete w Hp Hf)
      in Hrun.
    inversion Hrun; subst. destruct o.
    + unfold on_error_result in He.
      destruct (jsstring_eqb _ _); discriminate He.
    + now apply interpretResponse_extracted in He.
  - rewrite (validateExternalApi_handler rev fetch rule athlete w Hp) in Hrun.
    inversion Hrun; subst. unfold on_error_result in He.
    destruct (jsstring_eqb _ _); discriminate He.
Qed.

Lemma stored_nonempty (d : JsObject) (k : jsstring) :
  stored (if Nat.ltb 0 (List.length d) then Some d else None) k
  = own_property d k.
Proof. now destruct d. Qed.

(** X26.  Two rules evaluated one after the other: the verdict is
    eligible exactly when both pass, and its extracted data holds, under
    every key, the value extracted by the second rule when it extracted
    one, and the value of the first rule otherwise. *)
Theorem X26_later_extraction_wins :
  forall (World : Type) (fetch : Request -> World -> FetchOutcome * World)
         (athlete : AthleteData) (r1 r2 : EligibilityRule)
         (w w1 w2 : World) (res1 res2 : ValidationResult),
    isActive r1 = true -> type r1 = js "api_rest" ->
    isActive r2 = true -> type r2 = js "api_rest" ->
    validateExternalApi Revised fetch r1 athlete w = (Return res1, w1) ->
    validateExternalApi Revised fetch r2 athlete w1 = (Return res2, w2) ->
    exists verdict,
      executeEligibilityCheck Revised fetch athlete [r1; r2] w
      = (Return verdict, w2)
      /\ eligible verdict = ok res1 && ok res2
      /\ forall key,
           stored (result_extractedData verdict) key
           = match stored (extractedData res2) key with
             | Some v => Some v
             | None => stored (extractedData res1) key
             end.
Proof.
  intros World fetch athlete r1 r2 w w1 w2 res1 res2 Ha1 Ht1 Ha2 Ht2 H1 H2.
  simpl in H1, H2.
  assert (Hfirst : forall key,
            own_property
              match extractedData res1 with
              | Some e => spread [] e
              | None => []
              end key
            = stored (extractedData res1) key).
  { intros key. destruct (extractedData res1) as [d1|] eqn:Ed1; [|reflexivity].
    pose proof (validateExternalApi_extracted Revised fetch r1 athlete w
                  H1 Ed1) as Hnd.
    rewrite (@own_property_spread _ _ Hnd). simpl.
    now destruct (own_property d1 key). }
  assert (Hmerge : forall key,
            own_property
              match extractedData res2 with
              | Some e =>
                  spread match extractedData res1 with
                         | Some e1 => spread [] e1
                         | None => []
                         end e
              | None => match extractedData res1 with
                        | Some e => spread [] e
                        | None => []
                        end
              end key
            = match stored (extractedData res2) key with
              | Some v => Some v
              | None => stored (extractedData res1) key
              end).
  { intros key. destruct (extractedData res2) as [d2|] eqn:Ed2; simpl.
    - pose proof (validateExternalApi_extracted Revised fetch r2 athlete w1
                    H2 Ed2) as Hnd.
      rewrite (@own_property_spread _ _ Hnd). now rewrite Hfirst.
    - apply Hfirst. }
  simpl. unfold V2.executeEligibilityCheck. simpl. rewrite Ha1, Ha2. simpl.
  rewrite Ht1, Ht2. literals. unfold bind. rewrite H1.
  destruct (ok res1) eqn:O1; cbn [negb]; cbv beta iota zeta; rewrite H2;
    destruct (ok res2) eqn:O2; cbn [negb]; cbv beta iota zeta; unfold ret;
    (eexists; split; [reflexivity|]; split; [reflexivity|];
     cbn [result_extractedData]; intros key; rewrite stored_nonempty;
     apply Hmerge).
Qed.

(** X26 at two rules that both extract [categoria]. *)
Lemma X26_later_extraction_witness :
  exists verdict,
    executeEligibilityCheck Revised scripted ana
      [rule_saving (by_status None) (js "first") [js "categoria"];
       rule_saving (by_status None) (js "second") [js "categoria"; js "apto"]]
      [Responded 200 (Some (on_file (JBool true) (js "A")));
       Responded 200 (Some (on_file (JBool false) (js "B")))]
    = (Return verdict, [])
    /\ eligible verdict = true && true
    /\ forall key,
         stored (result_extractedData verdict) key
         = match stored (Some [(js "categoria", JStr (js "B"));
                               (js "apto", JBool false)]) key with
           | Some v => Some v
           | None => stored (Some [(js "categoria", JStr (js "A"))]) key
           end.
Proof.
  exact (@X26_later_extraction_wins (list FetchOutcome) scripted ana
           (rule_saving (by_status None) (js "first") [js "categoria"])
           (rule_saving (by_status None) (js "second")
              [js "categoria"; js "apto"])
           [Responded 200 (Some (on_file (JBool true) (js "A")));
            Responded 200 (Some (on_file (JBool false) (js "B")))]
           [Responded 200 (Some (on_file (JBool false) (js "B")))]
           []
           {| ok := true; message := None;
              extractedData := Some [(js "categoria", JStr (js "A"))] |}
           {| ok := true; message := None;
              extractedData := Some [(js "categoria", JStr (js "B"));
                                     (js "apto", JBool false)] |}
           eq_refl eq_refl eq_refl eq_refl eq_refl eq_refl).
Defined.
